(** * shclisem: a weighted semaphore in front of an HTTP client

    The repository ships three revisions of [shclisem.go].  Each one is
    embedded in a module of its own, with the names of the source:

    - [Plain]   : the first revision, semaphore and client only;
    - [Counted] : the revision with the [counter] struct and the four
                  counters [current], [waiting], [total], [errs];
    - [Locked]  : the revision that keeps [current] and [waiting] as two
                  integers, each behind its own RWMutex.

    A call of [DoWeightedContext] is modelled as a state-passing program
    over the handler: every counter method runs under the counter's mutex,
    so it is one atomic step on the handler's state.  What the rest of the
    process does while the call waits at the semaphore is an input of the
    call (a [World]). *)

From Stdlib Require Import ZArith String List Lia.
Import ListNotations.

Open Scope string_scope.
Open Scope Z_scope.

(** ** Go integers and durations *)

Definition MaxInt32 : Z := 2147483647.
Definition MaxInt64 : Z := 9223372036854775807.
Definition MinInt64 : Z := -9223372036854775808.

(** [int] is 64 bits wide (the source assigns [math.MaxInt64] to an [int]);
    arithmetic wraps around in two's complement. *)
Definition wrap (z : Z) : Z :=
  (z + 9223372036854775808) mod 18446744073709551616 - 9223372036854775808.

Definition is_int (z : Z) : Prop := MinInt64 <= z <= MaxInt64.

(** [time.Duration] counts nanoseconds. *)
Definition Second : Z := 1000000000.
Definition Minute : Z := 60 * Second.
Definition Hour : Z := 60 * Minute.

(** ** Errors *)

Inductive error :=
| errors_New (msg : string)      (* errors.New(msg) *)
| Canceled                      (* context.Canceled *)
| DeadlineExceeded              (* context.DeadlineExceeded *)
| url_Error (msg : string).     (* what an http client hands back *)

Definition Error (e : error) : string :=
  match e with
  | errors_New msg => msg
  | Canceled => "context canceled"
  | DeadlineExceeded => "context deadline exceeded"
  | url_Error msg => msg
  end.

(** [err != nil] on an interface value. *)
Definition notnil {A : Type} (e : option A) : bool :=
  match e with Some _ => true | None => false end.

(** ** Contexts

    All that a call sees of a [context.Context] is whether [Done()] is
    closed already, closes while the call waits, or never closes, and the
    error [Err()] reports then. *)

Inductive Context :=
| Background                    (* never done *)
| Done (e : error)              (* done before the call starts *)
| Pending (e : error).          (* done while the call waits, unless the gate opens first *)

(** [context.WithTimeout(context.Background(), d)] *)
Definition BackgroundWithTimeout (d : Z) : Context :=
  if d <=? 0 then Done DeadlineExceeded else Pending DeadlineExceeded.

(** ** The weighted semaphore of golang.org/x/sync/semaphore

    The package is a dependency, not part of the repository.  Its state is
    the size and the weight held; [Acquire] follows the package's
    documented contract: it fails with [ctx.Err()] when the context is
    done, grants at once when the weight fits, waits on the context alone
    when the weight exceeds the size, and otherwise waits for other
    holders to release or for the context, whichever the world lets
    happen first.  The call is taken to be the only waiter in the
    semaphore's queue. *)

Record Weighted := { size : Z; cur : Z }.

Definition NewWeighted (n : Z) : Weighted := {| size := n; cur := 0 |}.

(** What the other goroutines do while a call waits: the weight they give
    back to the semaphore before the call's context is done. *)
Record World := { released : Z }.

Inductive Acquired :=
| Granted (s : Weighted)
| Failed (e : error)            (* the semaphore is left unchanged *)
| Forever.                      (* the call never returns *)

Definition wait_done (ctx : Context) : Acquired :=
  match ctx with
  | Pending e => Failed e
  | Done e => Failed e
  | Background => Forever
  end.

Definition Acquire (s : Weighted) (ctx : Context) (n : Z) (w : World) : Acquired :=
  match ctx with
  | Done e => Failed e
  | _ =>
    if n <=? size s - cur s then Granted {| size := size s; cur := cur s + n |}
    else if size s <? n then wait_done ctx
    else
      let freed := Z.max 0 (Z.min (released w) (cur s)) in
      if n <=? size s - (cur s - freed)
      then Granted {| size := size s; cur := cur s - freed + n |}
      else wait_done ctx
  end.

(** [Release] panics when more is released than is held ([None]). *)
Definition Release (s : Weighted) (n : Z) : option Weighted :=
  let c := cur s - n in
  if c <? 0 then None else Some {| size := size s; cur := c |}.

(** ** net/http

    Requests and responses are opaque to the package: it only tests a
    request pointer against nil and passes it on to the client. *)

Class Http := {
  Request : Type;
  Response : Type;
  DefaultDo : Request -> option Response * option error
}.

Section Calls.
Context {H : Http}.

Record Client := { Do : Request -> option Response * option error }.

(** [http.DefaultClient] *)
Definition DefaultClient : Client := {| Do := DefaultDo |}.

(** How a call ends. *)
Inductive Outcome :=
| Returns (resp : option Response) (err : option error)
| Panics
| Blocks.

(** A method body over the state [S]: it either goes on with a value or
    leaves the method with an outcome. *)
Definition Go (S A : Type) : Type := S -> S * (A + Outcome).

Definition pure {S A : Type} (a : A) : Go S A := fun s => (s, inl a).

Definition leave {S A : Type} (o : Outcome) : Go S A := fun s => (s, inr o).

Definition bind {S A B : Type} (m : Go S A) (k : A -> Go S B) : Go S B :=
  fun s =>
    match m s with
    | (s', inl a) => k a s'
    | (s', inr o) => (s', inr o)
    end.

Definition gets {S A : Type} (f : S -> A) : Go S A := fun s => (s, inl (f s)).

(** [defer f()] in front of [body]: [f] runs when [body] returns or
    panics; a panic inside [f] makes the call panic. *)
Definition defer {S : Type} (f : S -> option S) (body : Go S Empty_set)
  : Go S Empty_set :=
  fun s =>
    match body s with
    | (s', inr Blocks) => (s', inr Blocks)
    | (s', inr o) =>
      match f s' with
      | Some s'' => (s'', inr o)
      | None => (s', inr Panics)
      end
    | (s', inl x) => match x with end
    end.

(** Running a method on a receiver. *)
Definition exec {S : Type} (m : Go S Empty_set) (s : S) : S * Outcome :=
  match m s with
  | (s', inr o) => (s', o)
  | (_, inl x) => match x with end
  end.

(** [errors.New(errr.Error() + " & " + err.Error())]: calling [Error] on
    a nil interface panics. *)
Definition joined (errr err : option error) : Outcome :=
  match errr, err with
  | Some a, Some b => Returns None (Some (errors_New (Error a ++ " & " ++ Error b)))
  | _, _ => Panics
  end.

End Calls.

Arguments Go {H} S A.

Declare Scope go_scope.
Delimit Scope go_scope with go.
Notation "x <- m ;; k" := (bind m (fun x => k))
  (at level 61, m at next level, right associativity) : go_scope.
Notation "m ;;; k" := (bind m (fun _ => k))
  (at level 61, right associativity) : go_scope.

(** [if err := m; err != nil { return nil, err }] *)
Definition guard `{Http} {S : Type} (m : Go S (option error)) : Go S unit :=
  (err <- m ;;
   match err with
   | Some e => leave (Returns None (Some e))
   | None => pure tt
   end)%go.

(** * The revision with counter structs *)

Module Counted.

(** The counter's mutex makes each method one atomic step; the struct is
    its four data fields. *)
Record counter := {
  name : string;
  count : Z;
  max : Z;
  rollover : bool
}.

Definition set_count (c : counter) (n : Z) : counter :=
  {| name := name c; count := n; max := max c; rollover := rollover c |}.

Definition newCounter (name : string) (max : Z) (rollover : bool) : counter :=
  {| name := name;
     count := 0;
     max := if max =? 0 then MaxInt64 else max;
     rollover := rollover |}.

(** [c.count++] *)
Definition incr (c : counter) : counter := set_count c (wrap (count c + 1)).

(** [c.count--] *)
Definition decr (c : counter) : counter := set_count c (wrap (count c - 1)).

Definition Add (c : counter) : counter * option error :=
  if count c =? max c then
    if rollover c then (incr (set_count c 0), None)
    else (c, Some (errors_New (name c ++ " count too high.  Slow your roll!")))
  else (incr c, None).

Definition Remove (c : counter) : counter * option error :=
  if count c =? 0 then
    if rollover c then (c, None)
    else (c, Some (errors_New "Too much removal"))
  else (decr c, None).

Definition Count (c : counter) : Z := count c.

Definition Max (c : counter) : Z := max c.

(** A sequence of method calls on one counter, with what each call
    returned. *)
Inductive op := OpAdd | OpRemove.

Definition step (o : op) (c : counter) : counter * option error :=
  match o with
  | OpAdd => Add c
  | OpRemove => Remove c
  end.

Fixpoint run (ops : list op) (c : counter) : counter * list (option error) :=
  match ops with
  | [] => (c, [])
  | o :: ops' =>
    let (c1, e) := step o c in
    let (c2, es) := run ops' c1 in
    (c2, e :: es)
  end%list.

Section Handler.
Context {H : Http}.

(** Pointer fields may be nil in a handler that was not built by
    [NewRequestHandler]. *)
Record RequestHandler := {
  client : option Client;
  sem : option Weighted;
  timeout : Z;
  current : option counter;
  waiting : option counter;
  total : option counter;
  errs : option counter
}.

Definition NewRequestHandler (tweight : Z) (timeout : Z) (cli : option Client)
  : RequestHandler :=
  let tweight :=
    if tweight <? 1 then 1
    else if tweight >? MaxInt32 then MaxInt32
    else tweight in
  let timeout :=
    if timeout <? 1 * Second then 1 * Minute
    else if timeout >? Hour then 1 * Minute
    else timeout in
  {| sem := Some (NewWeighted tweight);
     timeout := timeout;
     client := match cli with
               | None => Some DefaultClient
               | Some c => Some c
               end;
     current := Some (newCounter "Running" 0 false);
     waiting := Some (newCounter "Waiting" 0 false);
     total := Some (newCounter "Total" 0 true);
     errs := Some (newCounter "Errors" 0 true) |}.

Definition checkStruct (rh : RequestHandler) : option error :=
  if negb (notnil (client rh)) then
    Some (errors_New "nil http client, use the function NewRequestHandler to build the RequestHandler struct")
  else if negb (notnil (sem rh)) then
    Some (errors_New "nil semaphore, use the function NewRequestHandler to build the RequestHandler struct")
  else if negb (notnil (current rh)) then
    Some (errors_New "nil current counter, use the function NewRequestHandler to build the RequestHandler struct")
  else if negb (notnil (waiting rh)) then
    Some (errors_New "nil waiting counter, use the function NewRequestHandler to build the RequestHandler struct")
  else if negb (notnil (errs rh)) then
    Some (errors_New "nil error counter, use the function NewRequestHandler to build the RequestHandler struct")
  else if negb (notnil (total rh)) then
    Some (errors_New "nil total counter, use the function NewRequestHandler to build the RequestHandler struct")
  else None.

(** Field updates. *)
Definition set_sem (rh : RequestHandler) (s : Weighted) : RequestHandler :=
  {| client := client rh; sem := Some s; timeout := timeout rh;
     current := current rh; waiting := waiting rh;
     total := total rh; errs := errs rh |}.

Definition set_current (rh : RequestHandler) (c : counter) : RequestHandler :=
  {| client := client rh; sem := sem rh; timeout := timeout rh;
     current := Some c; waiting := waiting rh;
     total := total rh; errs := errs rh |}.

Definition set_waiting (rh : RequestHandler) (c : counter) : RequestHandler :=
  {| client := client rh; sem := sem rh; timeout := timeout rh;
     current := current rh; waiting := Some c;
     total := total rh; errs := errs rh |}.

Definition set_total (rh : RequestHandler) (c : counter) : RequestHandler :=
  {| client := client rh; sem := sem rh; timeout := timeout rh;
     current := current rh; waiting := waiting rh;
     total := Some c; errs := errs rh |}.

Definition set_errs (rh : RequestHandler) (c : counter) : RequestHandler :=
  {| client := client rh; sem := sem rh; timeout := timeout rh;
     current := current rh; waiting := waiting rh;
     total := total rh; errs := Some c |}.

(** A counter method called through a pointer field of the handler; a nil
    pointer panics. *)
Definition through (field : RequestHandler -> option counter)
    (store : RequestHandler -> counter -> RequestHandler)
    (method : counter -> counter * option error)
  : Go RequestHandler (option error) :=
  fun rh =>
    match field rh with
    | None => (rh, inr Panics)
    | Some c => let (c', e) := method c in (store rh c', inl e)
    end.

(** [rh.sem.Acquire(ctx, int64(weight))] *)
Definition sem_Acquire (ctx : Context) (weight : Z) (w : World)
  : Go RequestHandler (option error) :=
  fun rh =>
    match sem rh with
    | None => (rh, inr Panics)
    | Some s =>
      match Acquire s ctx weight w with
      | Granted s' => (set_sem rh s', inl None)
      | Failed e => (rh, inl (Some e))
      | Forever => (rh, inr Blocks)
      end
    end.

(** [rh.sem.Release(int64(weight))] *)
Definition sem_Release (weight : Z) (rh : RequestHandler) : option RequestHandler :=
  match sem rh with
  | None => None
  | Some s =>
    match Release s weight with
    | Some s' => Some (set_sem rh s')
    | None => None
    end
  end.

(** [rh.client.Do(req)] *)
Definition client_Do (req : Request)
  : Go RequestHandler (option Response * option error) :=
  fun rh =>
    match client rh with
    | None => (rh, inr Panics)
    | Some cli => (rh, inl (Do cli req))
    end.

Definition DoWeightedContext (req : option Request) (weight : Z)
    (ctx : option Context) (w : World) : Go RequestHandler Empty_set :=
  match req with
  | None => leave (Returns None (Some (errors_New "Request is nil")))
  | Some req =>
    let weight := if weight <? 1 then 1 else weight in
    let ctx := match ctx with None => Background | Some c => c end in
    (guard (gets checkStruct) ;;;
     guard (through waiting set_waiting Add) ;;;
     err <- sem_Acquire ctx weight w ;;
     if notnil err then
       errr <- through waiting set_waiting Remove ;;
       (* the source tests [err], the acquisition error, not [errr] *)
       if notnil err then leave (joined errr err)
       else leave (Returns None err)
     else
       defer (sem_Release weight)
         (guard (through waiting set_waiting Remove) ;;;
          guard (through current set_current Add) ;;;
          r <- client_Do req ;;
          let (resp, err) := r in
          errr <- through current set_current Remove ;;
          if notnil errr then
            through errs set_errs Add ;;;
            leave (joined errr err)
          else if notnil err then leave (Returns None err)
          else
            through total set_total Add ;;;
            leave (Returns resp None)))%go
  end.

Definition DoWeighted (req : option Request) (weight : Z) (w : World)
  : Go RequestHandler Empty_set :=
  fun rh =>
    let ctx := BackgroundWithTimeout (timeout rh) in
    DoWeightedContext req weight (Some ctx) w rh.

(** The method of the source is [Do]; the name is taken by the client's. *)
Definition Do_ (req : option Request) (w : World) : Go RequestHandler Empty_set :=
  DoWeighted req 1 w.

Definition counted (c : option counter) : Z :=
  match c with
  | None => 0
  | Some c => Count c
  end.

Definition GetWaitingWeight (rh : RequestHandler) : Z := counted (waiting rh).
Definition GetCurrentWeight (rh : RequestHandler) : Z := counted (current rh).
Definition GetErrorCount (rh : RequestHandler) : Z := counted (errs rh).
Definition GetTotalCount (rh : RequestHandler) : Z := counted (total rh).

End Handler.

End Counted.

(** * The revision with two mutex-guarded integers *)

Module Locked.

Section Handler.
Context {H : Http}.

Record RequestHandler := {
  client : option Client;
  sem : option Weighted;
  timeout : Z;
  current : Z;
  waiting : Z
}.

Definition NewRequestHandler (tweight : Z) (timeout : Z) (cli : option Client)
  : RequestHandler :=
  let tweight :=
    if tweight <? 1 then 1
    else if tweight >? MaxInt32 then MaxInt32
    else tweight in
  let timeout := if timeout <? 1 * Second then 1 * Minute else timeout in
  {| sem := Some (NewWeighted tweight);
     timeout := timeout;
     client := match cli with
               | None => Some DefaultClient
               | Some c => Some c
               end;
     current := 0;
     waiting := 0 |}.

Definition checkStruct (rh : RequestHandler) : option error :=
  if negb (notnil (client rh)) then
    Some (errors_New "nil http client, use the function NewRequestHandler to build the RequestHandler struct")
  else if negb (notnil (sem rh)) then
    Some (errors_New "nil semaphore, use the function NewRequestHandler to build the RequestHandler struct")
  else None.

Definition set_sem (rh : RequestHandler) (s : Weighted) : RequestHandler :=
  {| client := client rh; sem := Some s; timeout := timeout rh;
     current := current rh; waiting := waiting rh |}.

Definition set_current (rh : RequestHandler) (n : Z) : RequestHandler :=
  {| client := client rh; sem := sem rh; timeout := timeout rh;
     current := n; waiting := waiting rh |}.

Definition set_waiting (rh : RequestHandler) (n : Z) : RequestHandler :=
  {| client := client rh; sem := sem rh; timeout := timeout rh;
     current := current rh; waiting := n |}.

(** A statement that only updates the handler. *)
Definition update (f : RequestHandler -> RequestHandler) : Go RequestHandler unit :=
  fun rh => (f rh, inl tt).

(** [rh.sem.Acquire(ctx, int64(weight))]; the semaphore calls [ctx.Done()]
    first, which panics on a nil context. *)
Definition sem_Acquire (ctx : option Context) (weight : Z) (w : World)
  : Go RequestHandler (option error) :=
  fun rh =>
    match sem rh, ctx with
    | None, _ => (rh, inr Panics)
    | Some _, None => (rh, inr Panics)
    | Some s, Some ctx =>
      match Acquire s ctx weight w with
      | Granted s' => (set_sem rh s', inl None)
      | Failed e => (rh, inl (Some e))
      | Forever => (rh, inr Blocks)
      end
    end.

Definition sem_Release (weight : Z) (rh : RequestHandler) : option RequestHandler :=
  match sem rh with
  | None => None
  | Some s =>
    match Release s weight with
    | Some s' => Some (set_sem rh s')
    | None => None
    end
  end.

Definition client_Do (req : Request)
  : Go RequestHandler (option Response * option error) :=
  fun rh =>
    match client rh with
    | None => (rh, inr Panics)
    | Some cli => (rh, inl (Do cli req))
    end.

Definition DoWeightedContext (req : option Request) (weight : Z)
    (ctx : option Context) (w : World) : Go RequestHandler Empty_set :=
  match req with
  | None => leave (Returns None (Some (errors_New "Request is nil")))
  | Some req =>
    if weight >? MaxInt32 then
      leave (Returns None (Some (errors_New "Too heavy, drop some weight")))
    else
    (guard (gets checkStruct) ;;;
     full <- gets (fun rh => waiting rh >=? wrap (MaxInt32 - weight)) ;;
     if full : bool then
       leave (Returns None (Some (errors_New "Too much waiting! Slow your roll!")))
     else
       update (fun rh => set_waiting rh (wrap (waiting rh + weight))) ;;;
       err <- sem_Acquire ctx weight w ;;
       if notnil err then
         update (fun rh => set_waiting rh (wrap (waiting rh - weight))) ;;;
         leave (Returns None err)
       else
         update (fun rh => set_waiting rh (wrap (waiting rh - weight))) ;;;
         update (fun rh => set_current rh (wrap (current rh + weight))) ;;;
         defer (sem_Release weight)
           (defer (fun rh => Some (set_current rh (wrap (current rh - weight))))
              (r <- client_Do req ;;
               leave (Returns (fst r) (snd r)))))%go
  end.

Definition DoWeighted (req : option Request) (weight : Z) (w : World)
  : Go RequestHandler Empty_set :=
  fun rh =>
    let ctx := BackgroundWithTimeout (timeout rh) in
    DoWeightedContext req weight (Some ctx) w rh.

Definition Do_ (req : option Request) (w : World) : Go RequestHandler Empty_set :=
  DoWeighted req 1 w.

Definition GetWaitingWeight (rh : RequestHandler) : Z := waiting rh.
Definition GetCurrentWeight (rh : RequestHandler) : Z := current rh.

End Handler.

End Locked.

(** * The first revision *)

Module Plain.

Section Handler.
Context {H : Http}.

Record RequestHandler := {
  client : option Client;
  sem : option Weighted;
  timeout : Z
}.

Definition NewRequestHandler (tweight : Z) (timeout : Z) (cli : option Client)
  : RequestHandler :=
  let tweight := if tweight <? 1 then 1 else tweight in
  let timeout := if timeout <? 1 * Second then 1 * Minute else timeout in
  {| sem := Some (NewWeighted tweight);
     timeout := timeout;
     client := match cli with
               | None => Some DefaultClient
               | Some c => Some c
               end |}.

Definition checkStruct (rh : RequestHandler) : option error :=
  if negb (notnil (client rh)) then
    Some (errors_New "nil http client, use the function NewRequestHandler to build the RequestHandler struct")
  else if negb (notnil (sem rh)) then
    Some (errors_New "nil semaphore, use the function NewRequestHandler to build the RequestHandler struct")
  else None.

Definition set_sem (rh : RequestHandler) (s : Weighted) : RequestHandler :=
  {| client := client rh; sem := Some s; timeout := timeout rh |}.

Definition sem_Acquire (ctx : option Context) (weight : Z) (w : World)
  : Go RequestHandler (option error) :=
  fun rh =>
    match sem rh, ctx with
    | None, _ => (rh, inr Panics)
    | Some _, None => (rh, inr Panics)
    | Some s, Some ctx =>
      match Acquire s ctx weight w with
      | Granted s' => (set_sem rh s', inl None)
      | Failed e => (rh, inl (Some e))
      | Forever => (rh, inr Blocks)
      end
    end.

Definition sem_Release (weight : Z) (rh : RequestHandler) : option RequestHandler :=
  match sem rh with
  | None => None
  | Some s =>
    match Release s weight with
    | Some s' => Some (set_sem rh s')
    | None => None
    end
  end.

Definition client_Do (req : Request)
  : Go RequestHandler (option Response * option error) :=
  fun rh =>
    match client rh with
    | None => (rh, inr Panics)
    | Some cli => (rh, inl (Do cli req))
    end.

Definition DoWeightedContext (req : option Request) (weight : Z)
    (ctx : option Context) (w : World) : Go RequestHandler Empty_set :=
  match req with
  | None => leave (Returns None (Some (errors_New "Request is nil")))
  | Some req =>
    (guard (gets checkStruct) ;;;
     guard (sem_Acquire ctx weight w) ;;;
     defer (sem_Release weight)
       (r <- client_Do req ;;
        leave (Returns (fst r) (snd r))))%go
  end.

Definition DoWeighted (req : option Request) (weight : Z) (w : World)
  : Go RequestHandler Empty_set :=
  fun rh =>
    let ctx := BackgroundWithTimeout (timeout rh) in
    DoWeightedContext req weight (Some ctx) w rh.

Definition Do_ (req : option Request) (w : World) : Go RequestHandler Empty_set :=
  DoWeighted req 1 w.

End Handler.

End Plain.

(** * A concrete net/http for the examples

    Requests are URLs, responses are status codes; one client answers
    200 to everything, the other fails every request. *)

Module Sample.

Definition http : Http :=
  {| Request := string;
     Response := Z;
     DefaultDo := fun _ => (Some 200, None) |}.

Definition ok_client : @Client http :=
  {| Do := fun _ : @Request http => (Some 200 : option (@Response http), None) |}.

Definition failing_client : @Client http :=
  {| Do := fun _ : @Request http =>
             (None : option (@Response http), Some (url_Error "connection refused")) |}.

Definition req : @Request http := "http://example.com/".

Definition idle : World := {| released := 0 |}.

End Sample.

(** * Invariants used in the statements *)

(** A counter whose count lies between zero and its maximum, the maximum
    being a positive [int]. *)
Definition bounded (c : Counted.counter) : Prop :=
  0 <= Counted.count c <= Counted.max c /\ 1 <= Counted.max c <= MaxInt64.

(** The gate holds no more than its size. *)
Definition gate_ok (s : Weighted) : Prop :=
  1 <= size s <= MaxInt32 /\ 0 <= cur s <= size s.

(** The shape [Counted.NewRequestHandler] gives a handler and every call
    keeps: no nil collaborator, [current] and [waiting] refuse to
    overflow, [total] and [errs] roll over. *)
Definition constructed `{Http} (rh : Counted.RequestHandler) : Prop :=
  match Counted.client rh, Counted.sem rh, Counted.current rh,
        Counted.waiting rh, Counted.total rh, Counted.errs rh with
  | Some _, Some s, Some cu, Some wa, Some to, Some er =>
    gate_ok s /\
    (bounded cu /\ Counted.rollover cu = false) /\
    (bounded wa /\ Counted.rollover wa = false) /\
    (bounded to /\ Counted.rollover to = true) /\
    (bounded er /\ Counted.rollover er = true)
  | _, _, _, _, _, _ => False
  end.

(** ** Bookkeeping for sequences of calls *)

(** What a sequence of counter calls added in all: an Add that returned
    nil counts one up, a Remove that returned nil counts one down, a call
    that returned an error counts nothing. *)
Fixpoint tally (ops : list Counted.op) (es : list (option error)) : Z :=
  match ops, es with
  | (o :: ops')%list, (None :: es')%list =>
    match o with Counted.OpAdd => 1 | Counted.OpRemove => -1 end + tally ops' es'
  | (_ :: ops')%list, (Some _ :: es')%list => tally ops' es'
  | _, _ => 0
  end.

Section Sequences.
Context {H : Http}.

(** The arguments of one call of [DoWeightedContext], with what the other
    goroutines do meanwhile. *)
Record invocation := {
  inv_req : option Request;
  inv_weight : Z;
  inv_ctx : option Context;
  inv_world : World
}.

(** Calls made one after the other on the same handler. *)
Fixpoint serve (calls : list invocation) (rh : Counted.RequestHandler)
  : Counted.RequestHandler * list Outcome :=
  match calls with
  | [] => (rh, [])
  | c :: calls' =>
    let (rh1, o) :=
      exec (Counted.DoWeightedContext (inv_req c) (inv_weight c) (inv_ctx c)
              (inv_world c)) rh in
    let (rh2, os) := serve calls' rh1 in
    (rh2, o :: os)
  end%list.

Definition is_success (o : Outcome) : bool :=
  match o with Returns _ None => true | _ => false end.

Definition is_blocked (o : Outcome) : bool :=
  match o with Blocks => true | _ => false end.

(** How many outcomes of a list satisfy a test. *)
Definition how_many (test : Outcome -> bool) (os : list Outcome) : Z :=
  Z.of_nat (length (filter test os)).

(** A handler of the mutex revision with its collaborators in place, a
    gate that holds no negative weight and counters that are [int]s. *)
Definition locked_ok (rh : Locked.RequestHandler) : Prop :=
  match Locked.client rh, Locked.sem rh with
  | Some _, Some s => 0 <= cur s
  | _, _ => False
  end /\ is_int (Locked.waiting rh) /\ is_int (Locked.current rh).

(** The same for the first revision. *)
Definition plain_ok (rh : Plain.RequestHandler) : Prop :=
  match Plain.client rh, Plain.sem rh with
  | Some _, Some s => 0 <= cur s
  | _, _ => False
  end.

End Sequences.

(** * Counters *)

Lemma wrap_small (z : Z) : is_int z -> wrap z = z.
Proof.
  unfold is_int, MinInt64, MaxInt64, wrap. intros Hz.
  rewrite Z.mod_small; lia.
Qed.

Lemma Add_at_max_rolls (c : Counted.counter) :
  Counted.rollover c = true -> Counted.count c = Counted.max c ->
  Counted.Add c = (Counted.set_count c 1, None).
Proof.
  intros Hr Hc. unfold Counted.Add.
  rewrite Hc, Z.eqb_refl, Hr. reflexivity.
Qed.

Lemma Add_below_max (c : Counted.counter) :
  Counted.count c <> Counted.max c ->
  MinInt64 <= Counted.count c < MaxInt64 ->
  Counted.Add c = (Counted.set_count c (Counted.count c + 1), None).
Proof.
  intros Hne Hr. unfold Counted.Add.
  destruct (Z.eqb_spec (Counted.count c) (Counted.max c)) as [E|_]; [contradiction|].
  unfold Counted.incr. rewrite wrap_small; [reflexivity|].
  unfold is_int, MinInt64, MaxInt64 in *. lia.
Qed.

(** [n] calls of [Add] from [count = k] that stay below the maximum count
    up to [k + n], none returning an error. *)
Lemma run_Adds_below (n : nat) : forall (c : Counted.counter),
  0 <= Counted.count c ->
  Counted.count c + Z.of_nat n <= Counted.max c ->
  Counted.max c <= MaxInt64 ->
  Counted.run (repeat Counted.OpAdd n) c =
  (Counted.set_count c (Counted.count c + Z.of_nat n), repeat None n).
Proof.
  induction n as [|n IH]; intros c H0 Hle Hmax.
  - simpl. rewrite Z.add_0_r. destruct c; reflexivity.
  - cbn [repeat Counted.run Counted.step].
    rewrite Add_below_max by (unfold MinInt64; lia).
    rewrite IH by (simpl; lia).
    simpl. f_equal. unfold Counted.set_count; simpl. f_equal. lia.
Qed.

Lemma run_app (xs ys : list Counted.op) (c : Counted.counter) :
  Counted.run (xs ++ ys) c =
  (fst (Counted.run ys (fst (Counted.run xs c))),
   (snd (Counted.run xs c) ++ snd (Counted.run ys (fst (Counted.run xs c))))%list).
Proof.
  revert c. induction xs as [|x xs IH]; intros c.
  - simpl. destruct (Counted.run ys c); reflexivity.
  - simpl. destruct (Counted.step x c) as [c1 e].
    rewrite IH. destruct (Counted.run xs c1) as [c2 es]. reflexivity.
Qed.

(** One step keeps a bounded counter bounded. *)
Lemma step_bounded (o : Counted.op) (c : Counted.counter) :
  bounded c -> bounded (fst (Counted.step o c)) /\
               Counted.max (fst (Counted.step o c)) = Counted.max c.
Proof.
  unfold bounded. intros [Hc Hm].
  destruct o; simpl; unfold Counted.Add, Counted.Remove.
  - destruct (Z.eqb_spec (Counted.count c) (Counted.max c)).
    + destruct (Counted.rollover c); simpl; [|tauto].
      change (wrap 1) with 1. lia.
    + simpl. rewrite wrap_small by (unfold is_int, MinInt64, MaxInt64 in *; lia). lia.
  - destruct (Z.eqb_spec (Counted.count c) 0).
    + destruct (Counted.rollover c); simpl; tauto.
    + simpl. rewrite wrap_small by (unfold is_int, MinInt64, MaxInt64 in *; lia). lia.
Qed.

Lemma run_bounded (ops : list Counted.op) : forall c,
  bounded c -> bounded (fst (Counted.run ops c)) /\
               Counted.max (fst (Counted.run ops c)) = Counted.max c.
Proof.
  induction ops as [|o ops IH]; intros c Hb.
  - simpl. auto.
  - simpl. destruct (step_bounded o c Hb) as [Hb1 Hm1].
    destruct (Counted.step o c) as [c1 e]. simpl in *.
    destruct (IH c1 Hb1) as [Hb2 Hm2].
    destruct (Counted.run ops c1) as [c2 es]. simpl in *.
    split; [assumption | congruence].
Qed.

Lemma newCounter_bounded (name : string) (m : Z) (r : bool) :
  0 <= m <= MaxInt64 -> bounded (Counted.newCounter name m r).
Proof.
  unfold bounded, Counted.newCounter. simpl. intros Hm.
  destruct (Z.eqb_spec m 0); unfold MaxInt64 in *; lia.
Qed.

(** C7: a rollover counter at its maximum M answers a further Add by
    resetting to 0 and still incrementing: no error, count 1.  Driven from
    zero through M calls of Add and one more, no call returns an error and
    the count ends at 1. *)
Theorem C7_rollover_lands_on_one (c : Counted.counter) :
  Counted.rollover c = true ->
  (Counted.count c = Counted.max c ->
   Counted.Add c = (Counted.set_count c 1, None)) /\
  (Counted.count c = 0 -> is_int (Counted.max c) ->
   let M := Z.to_nat (Counted.max c) in
   Counted.run (repeat Counted.OpAdd M ++ [Counted.OpAdd]) c =
   (Counted.set_count c 1, repeat None (M + 1))).
Proof.
  intros Hr. split.
  - apply Add_at_max_rolls. assumption.
  - intros H0 [Hlo Hhi] M. subst M.
    rewrite run_app.
    destruct (Z.le_gt_cases 0 (Counted.max c)) as [Hpos|Hneg].
    + rewrite run_Adds_below by (rewrite ?Z2Nat.id; lia).
      rewrite H0, Z2Nat.id by assumption. cbn [fst snd Counted.run Counted.step].
      rewrite Add_at_max_rolls by (simpl; auto).
      simpl. rewrite repeat_app. reflexivity.
    + replace (Z.to_nat (Counted.max c)) with 0%nat by lia.
      cbn [repeat fst snd Counted.run Counted.step app].
      rewrite Add_below_max by (unfold MinInt64, MaxInt64; lia).
      rewrite H0. reflexivity.
Qed.

Lemma run_keeps_shape (ops : list Counted.op) : forall c,
  Counted.name (fst (Counted.run ops c)) = Counted.name c /\
  Counted.rollover (fst (Counted.run ops c)) = Counted.rollover c.
Proof.
  induction ops as [|o ops IH]; intros c; simpl; [auto|].
  assert (Hs : Counted.name (fst (Counted.step o c)) = Counted.name c /\
               Counted.rollover (fst (Counted.step o c)) = Counted.rollover c).
  { destruct o; simpl; unfold Counted.Add, Counted.Remove;
      repeat match goal with
             | |- context [if ?b then _ else _] => destruct b eqn:?
             end; unfold Counted.incr, Counted.decr; simpl; auto. }
  destruct (Counted.step o c) as [c1 e]. simpl in Hs.
  specialize (IH c1). destruct (Counted.run ops c1) as [c2 es].
  simpl in *. destruct Hs, IH. split; congruence.
Qed.

(** C8, amended: a counter made by newCounter with a maximum argument
    between 0 and MaxInt64 (0 standing for MaxInt64) keeps its count in
    [0, Max()] through every sequence of Add and Remove.  At the maximum
    Add either returns the error and leaves the counter alone or rolls
    over to 1; at zero Remove leaves the counter alone, with an error or
    silently. *)
Theorem C8_count_stays_within_bounds
    (name : string) (m : Z) (r : bool) (ops : list Counted.op) :
  0 <= m <= MaxInt64 ->
  let c := fst (Counted.run ops (Counted.newCounter name m r)) in
  0 <= Counted.Count c <= Counted.Max c /\
  (Counted.Count c = Counted.Max c ->
   Counted.Add c =
   if r then (Counted.set_count c 1, None)
   else (c, Some (errors_New (name ++ " count too high.  Slow your roll!")))) /\
  (Counted.Count c = 0 ->
   Counted.Remove c =
   (c, if r then None else Some (errors_New "Too much removal"))).
Proof.
  intros Hm c.
  destruct (run_bounded ops _ (newCounter_bounded name m r Hm)) as [[Hc _] _].
  destruct (run_keeps_shape ops (Counted.newCounter name m r)) as [Hn Hr].
  fold c in Hc, Hn, Hr. simpl in Hn, Hr.
  split; [exact Hc|]. unfold Counted.Count, Counted.Max. split; intros E.
  - unfold Counted.Add. rewrite E, Z.eqb_refl, Hr, Hn.
    destruct r; reflexivity.
  - unfold Counted.Remove. rewrite E, Hr. simpl.
    destruct r; reflexivity.
Qed.

(** ** More on counters *)

Lemma step_keeps_fields (o : Counted.op) (c : Counted.counter) :
  Counted.name (fst (Counted.step o c)) = Counted.name c /\
  Counted.max (fst (Counted.step o c)) = Counted.max c /\
  Counted.rollover (fst (Counted.step o c)) = Counted.rollover c.
Proof.
  destruct o; simpl; unfold Counted.Add, Counted.Remove;
    repeat match goal with
           | |- context [if ?b then _ else _] => destruct b eqn:?
           end; unfold Counted.incr, Counted.decr; simpl; auto.
Qed.

Lemma run_cons (o : Counted.op) (ops : list Counted.op) (c : Counted.counter) :
  Counted.run (o :: ops) c =
  (fst (Counted.run ops (fst (Counted.step o c))),
   (snd (Counted.step o c) :: snd (Counted.run ops (fst (Counted.step o c))))%list).
Proof.
  simpl. destruct (Counted.step o c) as [c1 e]. simpl.
  destruct (Counted.run ops c1) as [c2 es]. reflexivity.
Qed.

(** X1: a call of Add or Remove that returns an error has not touched the
    counter. *)
Theorem counter_error_leaves_counter
    (o : Counted.op) (c : Counted.counter) (e : error) :
  snd (Counted.step o c) = Some e -> fst (Counted.step o c) = c.
Proof.
  destruct o; simpl; unfold Counted.Add, Counted.Remove;
    repeat match goal with
           | |- context [if ?b then _ else _] => destruct b eqn:?
           end; simpl; intros E; try discriminate; reflexivity.
Qed.

(** X2: no call in any sequence of Add and Remove on a rollover counter
    returns an error. *)
Theorem rollover_never_errors (ops : list Counted.op) (c : Counted.counter) :
  Counted.rollover c = true ->
  snd (Counted.run ops c) = repeat None (length ops).
Proof.
  revert c. induction ops as [|o ops IH]; intros c Hr; [reflexivity|].
  rewrite run_cons. cbn [snd length repeat]. f_equal.
  - destruct o; simpl; unfold Counted.Add, Counted.Remove; rewrite Hr;
      repeat match goal with
             | |- context [if ?b then _ else _] => destruct b eqn:?
             end; reflexivity.
  - apply IH. destruct (step_keeps_fields o c) as (_ & _ & ->). exact Hr.
Qed.

(** X3: Add and Remove only ever write the count: after any sequence of
    calls the counter has the name, the maximum and the overflow policy it
    started with. *)
Theorem run_changes_count_only (ops : list Counted.op) (c : Counted.counter) :
  fst (Counted.run ops c) =
  Counted.set_count c (Counted.Count (fst (Counted.run ops c))).
Proof.
  revert c. induction ops as [|o ops IH]; intros c.
  - destruct c; reflexivity.
  - rewrite run_cons. cbn [fst]. rewrite IH at 1.
    destruct (step_keeps_fields o c) as (Hn & Hm & Hr).
    unfold Counted.set_count. simpl. rewrite Hn, Hm, Hr. reflexivity.
Qed.

(** X4: on a counter within its bounds Add and Remove undo each other:
    below the maximum, Add and then Remove return no error and give the
    counter back; above zero, so do Remove and then Add. *)
Theorem Add_Remove_round_trip (c : Counted.counter) :
  bounded c ->
  (Counted.count c < Counted.max c ->
   snd (Counted.Add c) = None /\
   Counted.Remove (fst (Counted.Add c)) = (c, None)) /\
  (0 < Counted.count c ->
   snd (Counted.Remove c) = None /\
   Counted.Add (fst (Counted.Remove c)) = (c, None)).
Proof.
  intros [Hc Hm]. split; intros Hroom.
  - unfold Counted.Add.
    destruct (Z.eqb_spec (Counted.count c) (Counted.max c)); [lia|].
    split; [reflexivity|]. cbn [fst].
    unfold Counted.Remove, Counted.incr, Counted.decr. simpl.
    rewrite wrap_small by (unfold is_int, MinInt64, MaxInt64 in *; lia).
    destruct (Z.eqb_spec (Counted.count c + 1) 0); [lia|].
    replace (Counted.count c + 1 - 1) with (Counted.count c) by lia.
    rewrite wrap_small by (unfold is_int, MinInt64, MaxInt64 in *; lia).
    destruct c; reflexivity.
  - unfold Counted.Remove.
    destruct (Z.eqb_spec (Counted.count c) 0); [lia|].
    split; [reflexivity|]. cbn [fst].
    unfold Counted.Add, Counted.incr, Counted.decr. simpl.
    rewrite wrap_small by (unfold is_int, MinInt64, MaxInt64 in *; lia).
    destruct (Z.eqb_spec (Counted.count c - 1) (Counted.max c)); [lia|].
    replace (Counted.count c - 1 + 1) with (Counted.count c) by lia.
    rewrite wrap_small by (unfold is_int, MinInt64, MaxInt64 in *; lia).
    destruct c; reflexivity.
Qed.

(** X5: on a counter that refuses to overflow, the count after any
    sequence of calls is the count before it, plus the Adds that returned
    nil, minus the Removes that returned nil. *)
Theorem saturating_count_is_tally (ops : list Counted.op) (c : Counted.counter) :
  bounded c -> Counted.rollover c = false ->
  Counted.Count (fst (Counted.run ops c)) =
  Counted.Count c + tally ops (snd (Counted.run ops c)).
Proof.
  revert c. induction ops as [|o ops IH]; intros c Hb Hr.
  - simpl. unfold Counted.Count. lia.
  - rewrite run_cons. cbn [fst snd].
    destruct (step_bounded o c Hb) as [Hb1 _].
    destruct (step_keeps_fields o c) as (_ & _ & Hr1).
    rewrite IH by (try assumption; congruence).
    destruct Hb as [Hc Hm].
    assert (Hstep :
      Counted.Count (fst (Counted.step o c)) + 
      tally ops (snd (Counted.run ops (fst (Counted.step o c)))) =
      Counted.Count c +
      tally (o :: ops)
        (snd (Counted.step o c) :: snd (Counted.run ops (fst (Counted.step o c))))).
    { destruct o; cbn [Counted.step];
        unfold Counted.Add, Counted.Remove, Counted.Count; rewrite Hr.
      - destruct (Z.eqb_spec (Counted.count c) (Counted.max c));
          cbn [fst snd tally]; [lia|].
        unfold Counted.incr at 1. cbn [Counted.count Counted.set_count].
        rewrite wrap_small by (unfold is_int, MinInt64, MaxInt64 in *; lia). lia.
      - destruct (Z.eqb_spec (Counted.count c) 0);
          cbn [fst snd tally]; [lia|].
        unfold Counted.decr at 1. cbn [Counted.count Counted.set_count].
        rewrite wrap_small by (unfold is_int, MinInt64, MaxInt64 in *; lia). lia. }
    exact Hstep.
Qed.

Lemma Adds_cycle (n : nat) : forall (c : Counted.counter),
  Counted.rollover c = true ->
  1 <= Counted.max c <= MaxInt64 ->
  1 <= Counted.count c <= Counted.max c ->
  Counted.count (fst (Counted.run (repeat Counted.OpAdd n) c)) =
  (Counted.count c - 1 + Z.of_nat n) mod Counted.max c + 1.
Proof.
  induction n as [|n IH]; intros c Hr Hm Hc.
  - simpl. rewrite Z.add_0_r, Z.mod_small by lia. lia.
  - cbn [repeat]. rewrite run_cons. cbn [fst Counted.step].
    destruct (step_keeps_fields Counted.OpAdd c) as (_ & Hm1 & Hr1).
    cbn [Counted.step] in Hm1, Hr1.
    assert (Hc1 : Counted.count (fst (Counted.Add c)) =
                  if Counted.count c =? Counted.max c then 1
                  else Counted.count c + 1).
    { unfold Counted.Add. rewrite Hr.
      destruct (Z.eqb_spec (Counted.count c) (Counted.max c)); [reflexivity|].
      simpl. apply wrap_small. unfold is_int, MinInt64, MaxInt64 in *. lia. }
    rewrite IH; rewrite ?Hm1, ?Hr1, ?Hc1; try assumption.
    + destruct (Z.eqb_spec (Counted.count c) (Counted.max c)) as [E|E].
      * rewrite E.
        replace (Counted.max c - 1 + Z.of_nat (S n))
          with (Z.of_nat n + 1 * Counted.max c) by lia.
        rewrite Z_mod_plus_full. f_equal; f_equal; lia.
      * f_equal; f_equal; lia.
    + destruct (Z.eqb_spec (Counted.count c) (Counted.max c)); lia.
Qed.

(** X6: a rollover counter cycles through 1..max: driven from zero by
    n + 1 calls of Add it reads (n mod max) + 1, so it never reads zero
    again. *)
Theorem rollover_Adds_cycle (n : nat) (c : Counted.counter) :
  Counted.rollover c = true ->
  1 <= Counted.max c <= MaxInt64 ->
  Counted.count c = 0 ->
  Counted.Count (fst (Counted.run (repeat Counted.OpAdd (S n)) c)) =
  Z.of_nat n mod Counted.max c + 1.
Proof.
  intros Hr Hm H0. cbn [repeat]. rewrite run_cons. cbn [fst Counted.step].
  destruct (step_keeps_fields Counted.OpAdd c) as (_ & Hm1 & Hr1).
  cbn [Counted.step] in Hm1, Hr1.
  assert (Hc1 : Counted.count (fst (Counted.Add c)) = 1).
  { unfold Counted.Add.
    destruct (Z.eqb_spec (Counted.count c) (Counted.max c)); [lia|].
    simpl. rewrite H0. reflexivity. }
  unfold Counted.Count.
  rewrite Adds_cycle; rewrite ?Hm1, ?Hr1, ?Hc1; try assumption; try lia.
  f_equal; f_equal; lia.
Qed.

(** X7: a counter that refuses to overflow stops at its maximum: driven
    by n calls of Add it reads the smaller of its maximum and its old
    count plus n. *)
Theorem saturating_Adds_clamp (n : nat) (c : Counted.counter) :
  bounded c -> Counted.rollover c = false ->
  Counted.Count (fst (Counted.run (repeat Counted.OpAdd n) c)) =
  Z.min (Counted.count c + Z.of_nat n) (Counted.max c).
Proof.
  revert c. induction n as [|n IH]; intros c Hb Hr.
  - simpl. unfold Counted.Count. destruct Hb. lia.
  - cbn [repeat]. rewrite run_cons. cbn [fst].
    destruct (step_bounded Counted.OpAdd c Hb) as [Hb1 Hm1].
    destruct (step_keeps_fields Counted.OpAdd c) as (_ & _ & Hr1).
    rewrite IH by (try assumption; congruence).
    rewrite Hm1. destruct Hb as [Hc Hm].
    simpl. unfold Counted.Add. rewrite Hr.
    destruct (Z.eqb_spec (Counted.count c) (Counted.max c)); simpl; [lia|].
    rewrite wrap_small by (unfold is_int, MinInt64, MaxInt64 in *; lia). lia.
Qed.

(** * Handlers *)

Section Properties.
Context {H : Http}.

(** C9: a nil request is answered with the error "Request is nil" by
    DoWeightedContext, DoWeighted and Do, in each revision and on every
    handler, and the handler (counters and semaphore) is left as it
    was. *)
Theorem C9_nil_request_rejected
    (weight : Z) (ctx : option Context) (w : World) :
  let InvalidRequest := Returns None (Some (errors_New "Request is nil")) in
  (forall rh : Counted.RequestHandler,
     exec (Counted.DoWeightedContext None weight ctx w) rh = (rh, InvalidRequest) /\
     exec (Counted.DoWeighted None weight w) rh = (rh, InvalidRequest) /\
     exec (Counted.Do_ None w) rh = (rh, InvalidRequest)) /\
  (forall rh : Locked.RequestHandler,
     exec (Locked.DoWeightedContext None weight ctx w) rh = (rh, InvalidRequest) /\
     exec (Locked.DoWeighted None weight w) rh = (rh, InvalidRequest) /\
     exec (Locked.Do_ None w) rh = (rh, InvalidRequest)) /\
  (forall rh : Plain.RequestHandler,
     exec (Plain.DoWeightedContext None weight ctx w) rh = (rh, InvalidRequest) /\
     exec (Plain.DoWeighted None weight w) rh = (rh, InvalidRequest) /\
     exec (Plain.Do_ None w) rh = (rh, InvalidRequest)).
Proof.
  intros InvalidRequest. repeat split.
Qed.

(** C6: NewRequestHandler builds a semaphore of size 1 for a total weight
    below 1, of size math.MaxInt32 for a total weight above it, and of the
    given size in between; it stores one minute for a timeout below one
    second or above one hour, and the given timeout in between. *)
Theorem C6_constructor_clamps (tweight timeout : Z) (cli : option Client) :
  let rh := Counted.NewRequestHandler tweight timeout cli in
  (tweight < 1 -> Counted.sem rh = Some (NewWeighted 1)) /\
  (MaxInt32 < tweight -> Counted.sem rh = Some (NewWeighted MaxInt32)) /\
  (1 <= tweight <= MaxInt32 -> Counted.sem rh = Some (NewWeighted tweight)) /\
  (timeout < Second -> Counted.timeout rh = Minute) /\
  (Hour < timeout -> Counted.timeout rh = Minute) /\
  (Second <= timeout <= Hour -> Counted.timeout rh = timeout).
Proof.
  unfold Counted.NewRequestHandler. cbn [Counted.sem Counted.timeout].
  rewrite !Z.mul_1_l.
  destruct (Z.ltb_spec tweight 1), (Z.gtb_spec tweight MaxInt32),
           (Z.ltb_spec timeout Second), (Z.gtb_spec timeout Hour);
    repeat split; intros; try reflexivity;
    unfold MaxInt32, Second, Minute, Hour in *; lia.
Qed.

(** ** Counter and gate steps inside a call *)

#[local] Arguments Counted.Add : simpl never.
#[local] Arguments Counted.Remove : simpl never.
#[local] Arguments Acquire : simpl never.
#[local] Arguments Release : simpl never.

Lemma Add_then_Remove (c c' : Counted.counter) :
  bounded c -> Counted.rollover c = false ->
  Counted.Add c = (c', None) ->
  Counted.Remove c' = (c, None) /\ Counted.count c' = Counted.count c + 1 /\
  Counted.max c' = Counted.max c /\ Counted.rollover c' = false.
Proof.
  intros [Hc Hm] Hr. unfold Counted.Add. rewrite Hr.
  destruct (Z.eqb_spec (Counted.count c) (Counted.max c)); [discriminate|].
  intros E. injection E as <-.
  unfold Counted.Remove, Counted.incr, Counted.decr. simpl.
  rewrite wrap_small by (unfold is_int, MinInt64, MaxInt64 in *; lia).
  destruct (Z.eqb_spec (Counted.count c + 1) 0); [lia|].
  repeat split; try assumption. f_equal.
  replace (Counted.count c + 1 - 1) with (Counted.count c) by lia.
  rewrite wrap_small by (unfold is_int, MinInt64, MaxInt64 in *; lia).
  destruct c; reflexivity.
Qed.

Lemma Add_full (c : Counted.counter) :
  Counted.rollover c = false -> Counted.count c = Counted.max c ->
  Counted.Add c =
  (c, Some (errors_New (Counted.name c ++ " count too high.  Slow your roll!"))).
Proof.
  intros Hr Hc. unfold Counted.Add. rewrite Hc, Z.eqb_refl, Hr. reflexivity.
Qed.

Lemma Add_ok_or_full (c : Counted.counter) :
  bounded c -> Counted.rollover c = false ->
  (Counted.count c = Counted.max c /\
   Counted.Add c =
   (c, Some (errors_New (Counted.name c ++ " count too high.  Slow your roll!")))) \/
  (Counted.count c <> Counted.max c /\ Counted.Add c = (Counted.incr c, None)).
Proof.
  intros _ Hr. unfold Counted.Add. rewrite Hr.
  destruct (Z.eqb_spec (Counted.count c) (Counted.max c)); [left|right]; auto.
Qed.

(** A granted weight can be given back, and the gate is then as the other
    holders left it. *)
Lemma Acquire_then_Release (s s' : Weighted) (ctx : Context) (n : Z) (w : World) :
  gate_ok s -> 1 <= n -> Acquire s ctx n w = Granted s' ->
  gate_ok s' /\
  exists s'', Release s' n = Some s'' /\ gate_ok s'' /\
              size s'' = size s /\ cur s'' <= cur s.
Proof.
  intros [Hs Hc] Hn. unfold Acquire, Release, wait_done, gate_ok.
  assert (G : forall k, 0 <= k <= cur s -> n <= size s - (cur s - k) ->
            forall s', Granted {| size := size s; cur := cur s - k + n |} = Granted s' ->
            ((1 <= size s' <= MaxInt32 /\ 0 <= cur s' <= size s') /\
             exists s'', (let c := cur s' - n in
                 if c <? 0 then None else Some {| size := size s'; cur := c |}) = Some s'' /\
                (1 <= size s'' <= MaxInt32 /\ 0 <= cur s'' <= size s'') /\
                size s'' = size s /\ cur s'' <= cur s)).
  { intros k Hk Hfit s0 E. injection E as <-. simpl.
    split; [lia|].
    destruct (Z.ltb_spec (cur s - k + n - n) 0); [lia|].
    eexists; split; [reflexivity|]. simpl. lia. }
  destruct ctx as [|e|e]; try discriminate;
    (destruct (Z.leb_spec n (size s - cur s));
     [ replace (cur s + n) with (cur s - 0 + n) by lia; apply G; lia
     | destruct (Z.ltb_spec (size s) n); [discriminate|];
       destruct (Z.leb_spec n (size s - (cur s - Z.max 0 (Z.min (released w) (cur s)))));
       [apply G; lia | discriminate] ]).
Qed.

(** ** One call on a constructed handler, case by case *)

Section OneCall.
Variables (cl : Client) (se : Weighted) (ti : Z).
Variables (cu wa to er : Counted.counter).
Variables (req : Request) (weight : Z) (ctx : option Context) (w : World).

Let rh : Counted.RequestHandler :=
  {| Counted.client := Some cl; Counted.sem := Some se; Counted.timeout := ti;
     Counted.current := Some cu; Counted.waiting := Some wa;
     Counted.total := Some to; Counted.errs := Some er |}.
Let wt : Z := if weight <? 1 then 1 else weight.
Let cx : Context := match ctx with None => Background | Some c => c end.
Let call := exec (Counted.DoWeightedContext (Some req) weight ctx w) rh.

Hypothesis wa_bounded : bounded wa.
Hypothesis wa_saturates : Counted.rollover wa = false.

Lemma call_waiting_full :
  Counted.count wa = Counted.max wa ->
  call = (rh, Returns None
                (Some (errors_New (Counted.name wa ++ " count too high.  Slow your roll!")))).
Proof.
  intros Hfull. unfold call, rh, Counted.DoWeightedContext.
  unfold exec, guard, gets, Counted.through, leave, pure, bind. simpl.
  rewrite (Add_full wa wa_saturates Hfull). reflexivity.
Qed.

Lemma call_waits_forever :
  Counted.count wa <> Counted.max wa ->
  Acquire se cx wt w = Forever ->
  call = (Counted.set_waiting rh (Counted.incr wa), Blocks).
Proof.
  intros Hroom Hacq. unfold call, rh, Counted.DoWeightedContext.
  fold wt cx.
  unfold exec, guard, gets, Counted.through, leave, pure, bind. simpl.
  destruct (Add_ok_or_full wa wa_bounded wa_saturates) as [[E _]|[_ ->]];
    [contradiction|].
  unfold Counted.sem_Acquire. simpl. rewrite Hacq. reflexivity.
Qed.

Lemma call_gate_fails (e : error) :
  Counted.count wa <> Counted.max wa ->
  Acquire se cx wt w = Failed e ->
  call = (rh, Panics).
Proof.
  intros Hroom Hacq. unfold call, rh, Counted.DoWeightedContext.
  fold wt cx.
  unfold exec, guard, gets, Counted.through, leave, pure, bind. simpl.
  destruct (Add_ok_or_full wa wa_bounded wa_saturates) as [[E _]|[_ Ea]];
    [contradiction|].
  rewrite Ea.
  destruct (Add_then_Remove _ _ wa_bounded wa_saturates Ea) as (Rw & _).
  unfold Counted.sem_Acquire. simpl. rewrite Hacq. simpl.
  rewrite Rw. reflexivity.
Qed.

Hypothesis cu_bounded : bounded cu.
Hypothesis cu_saturates : Counted.rollover cu = false.

Lemma call_admitted (s' s'' : Weighted) :
  Counted.count wa <> Counted.max wa ->
  Acquire se cx wt w = Granted s' ->
  Release s' wt = Some s'' ->
  call =
  if Counted.count cu =? Counted.max cu then
    (Counted.set_sem rh s'',
     Returns None
       (Some (errors_New (Counted.name cu ++ " count too high.  Slow your roll!"))))
  else
    match Do cl req with
    | (_, Some e) => (Counted.set_sem rh s'', Returns None (Some e))
    | (resp, None) =>
      (Counted.set_total (Counted.set_sem rh s'') (fst (Counted.Add to)),
       Returns resp None)
    end.
Proof.
  intros Hroom Hacq Hrel. unfold call, rh, Counted.DoWeightedContext.
  fold wt cx.
  unfold exec, guard, gets, Counted.through, leave, pure, bind. simpl.
  destruct (Add_ok_or_full wa wa_bounded wa_saturates) as [[E _]|[_ Ea]];
    [contradiction|].
  rewrite Ea.
  destruct (Add_then_Remove _ _ wa_bounded wa_saturates Ea) as (Rw & _).
  unfold Counted.sem_Acquire. simpl. rewrite Hacq. simpl.
  unfold defer, bind. simpl. rewrite Rw. simpl.
  destruct (Add_ok_or_full cu cu_bounded cu_saturates) as [[E Ec]|[E Ec]].
  - rewrite Ec. simpl. unfold Counted.sem_Release. simpl. rewrite Hrel.
    rewrite E, Z.eqb_refl. reflexivity.
  - rewrite Ec.
    destruct (Add_then_Remove _ _ cu_bounded cu_saturates Ec) as (Rc & _).
    simpl. unfold Counted.client_Do. simpl.
    destruct (Z.eqb_spec (Counted.count cu) (Counted.max cu)); [contradiction|].
    destruct (Do cl req) as [resp [e|]]; simpl; rewrite Rc; simpl.
    + unfold Counted.sem_Release. simpl. rewrite Hrel. reflexivity.
    + destruct (Counted.Add to) as [to' e']. simpl.
      unfold Counted.sem_Release. simpl. rewrite Hrel. reflexivity.
Qed.

End OneCall.


(** ** The constructor's shape is an invariant of the calls *)

Lemma Add_keeps_bounded (c : Counted.counter) :
  bounded c ->
  bounded (fst (Counted.Add c)) /\
  Counted.rollover (fst (Counted.Add c)) = Counted.rollover c.
Proof.
  intros Hb. split.
  - apply (step_bounded Counted.OpAdd c Hb).
  - unfold Counted.Add, Counted.incr.
    destruct (Counted.count c =? Counted.max c);
      [destruct (Counted.rollover c) eqn:Hr|]; simpl; auto.
Qed.

Lemma NewRequestHandler_constructed (tweight timeout : Z) (cli : option Client) :
  constructed (Counted.NewRequestHandler tweight timeout cli).
Proof.
  unfold constructed, Counted.NewRequestHandler. simpl.
  destruct cli; (split; [|repeat split; simpl; unfold MaxInt64; lia]);
    unfold gate_ok, NewWeighted; simpl;
    destruct (Z.ltb_spec tweight 1), (Z.gtb_spec tweight MaxInt32);
    unfold MaxInt32 in *; lia.
Qed.

(** Opening a constructed handler into its fields. *)
Ltac open_handler rh Hc :=
  let cl := fresh "cl" in let se := fresh "se" in let ti := fresh "ti" in
  let cu := fresh "cu" in let wa := fresh "wa" in
  let to := fresh "to" in let er := fresh "er" in
  destruct rh as [cl se ti cu wa to er];
  unfold constructed in Hc; simpl in Hc;
  destruct cl as [cl|], se as [se|], cu as [cu|],
           wa as [wa|], to as [to|], er as [er|]; try contradiction;
  destruct Hc as (Hgate & [Hcu Hcur] & [Hwa Hwar] & [Hto Htor] & [Her Herr]).

Lemma DoWeightedContext_keeps_constructed
    (rh : Counted.RequestHandler) (req : option Request) (weight : Z)
    (ctx : option Context) (w : World) :
  constructed rh ->
  constructed (fst (exec (Counted.DoWeightedContext req weight ctx w) rh)).
Proof.
  intros Hc. destruct req as [req|]; [|exact Hc].
  open_handler rh Hc.
  assert (Hwt : 1 <= (if weight <? 1 then 1 else weight))
    by (destruct (Z.ltb_spec weight 1); lia).
  destruct (Z.eq_dec (Counted.count wa) (Counted.max wa)) as [Hfull|Hroom].
  { rewrite call_waiting_full by assumption. simpl.
    unfold constructed; simpl; tauto. }
  destruct (Acquire se match ctx with None => Background | Some c => c end
              (if weight <? 1 then 1 else weight) w) as [s'|e|] eqn:Hacq.
  - destruct (Acquire_then_Release _ _ _ _ _ Hgate Hwt Hacq)
      as (_ & s'' & Hrel & Hg'' & _).
    rewrite (call_admitted _ _ _ _ _ _ _ _ _ _ _ Hwa Hwar Hcu Hcur s' s'')
      by assumption.
    destruct (Counted.count cu =? Counted.max cu).
    + unfold constructed; simpl; tauto.
    + destruct (Do cl req) as [resp [e|]]; unfold constructed; simpl; [tauto|].
      destruct (Add_keeps_bounded to Hto) as [Hb Hr]. rewrite Hr. tauto.
  - rewrite (call_gate_fails _ _ _ _ _ _ _ _ _ _ _ Hwa Hwar e) by assumption.
    unfold constructed; simpl; tauto.
  - rewrite call_waits_forever by assumption.
    unfold constructed; simpl.
    destruct (Add_keeps_bounded wa Hwa) as [Hb Hr].
    destruct (Add_ok_or_full wa Hwa Hwar) as [[E _]|[_ Ea]]; [contradiction|].
    rewrite Ea in Hb. simpl in Hb. tauto.
Qed.

(** A handler with a nil collaborator answers every request with the
    configuration error of [checkStruct] and stays as it is. *)
Lemma call_not_initialized
    (rh : Counted.RequestHandler) (req : Request) (weight : Z)
    (ctx : option Context) (w : World) (e : error) :
  Counted.checkStruct rh = Some e ->
  exec (Counted.DoWeightedContext (Some req) weight ctx w) rh
  = (rh, Returns None (Some e)).
Proof.
  intros Hcs. unfold Counted.DoWeightedContext.
  unfold exec, guard, gets, leave, pure, bind. rewrite Hcs. reflexivity.
Qed.

(** C5: a call of DoWeightedContext that returns without an error, on a
    handler built by NewRequestHandler and used through its methods (or on
    one with a nil collaborator, where no call succeeds), leaves the
    waiting counter and the current counter exactly as they were before
    the call, so the sum of the waiting and in-flight readings is
    unchanged. *)
Theorem C5_no_leaked_weight
    (rh rh' : Counted.RequestHandler) (req : option Request) (weight : Z)
    (ctx : option Context) (w : World) (resp : option Response) :
  constructed rh \/ Counted.checkStruct rh <> None ->
  exec (Counted.DoWeightedContext req weight ctx w) rh = (rh', Returns resp None) ->
  Counted.waiting rh' = Counted.waiting rh /\
  Counted.current rh' = Counted.current rh /\
  Counted.GetWaitingWeight rh' + Counted.GetCurrentWeight rh' =
  Counted.GetWaitingWeight rh + Counted.GetCurrentWeight rh.
Proof.
  intros Hc Hcall.
  assert (Hfields : Counted.waiting rh' = Counted.waiting rh /\
                    Counted.current rh' = Counted.current rh).
  { destruct req as [req|]; [|discriminate].
    destruct Hc as [Hc|Hnil].
    2:{ destruct (Counted.checkStruct rh) as [e|] eqn:Hcs; [|contradiction].
        rewrite (call_not_initialized _ _ _ _ _ e Hcs) in Hcall. discriminate. }
    open_handler rh Hc.
    assert (Hwt : 1 <= (if weight <? 1 then 1 else weight))
      by (destruct (Z.ltb_spec weight 1); lia).
    destruct (Z.eq_dec (Counted.count wa) (Counted.max wa)) as [Hfull|Hroom].
    { rewrite call_waiting_full in Hcall by assumption. discriminate. }
    destruct (Acquire se match ctx with None => Background | Some c => c end
                (if weight <? 1 then 1 else weight) w) as [s'|e|] eqn:Hacq.
    - destruct (Acquire_then_Release _ _ _ _ _ Hgate Hwt Hacq)
        as (_ & s'' & Hrel & _).
      rewrite (call_admitted _ _ _ _ _ _ _ _ _ _ _ Hwa Hwar Hcu Hcur s' s'')
        in Hcall by assumption.
      destruct (Counted.count cu =? Counted.max cu); [discriminate|].
      destruct (Do cl req) as [resp0 [e|]]; [discriminate|].
      injection Hcall as <- _. split; reflexivity.
    - rewrite (call_gate_fails _ _ _ _ _ _ _ _ _ _ _ Hwa Hwar e) in Hcall
        by assumption.
      discriminate.
    - rewrite call_waits_forever in Hcall by assumption. discriminate. }
  destruct Hfields as [Hw Hcu]. repeat split; try assumption.
  unfold Counted.GetWaitingWeight, Counted.GetCurrentWeight.
  rewrite Hw, Hcu. reflexivity.
Qed.

(** C10: with a nil context on a constructed handler, DoWeightedContext
    behaves as with context.Background().  It does not panic, and what it
    returns never comes from a context: the call either waits at the gate
    forever, or returns the "count too high" error of the waiting or of
    the current counter, or returns what the client answered.  Whenever
    the waiting counter has room and the gate does not grant the weight,
    the call waits forever. *)
Theorem C10_nil_context_waits
    (rh : Counted.RequestHandler) (req : Request) (weight : Z) (w : World) :
  constructed rh ->
  let call := exec (Counted.DoWeightedContext (Some req) weight None w) rh in
  call = exec (Counted.DoWeightedContext (Some req) weight (Some Background) w) rh /\
  snd call <> Panics /\
  (snd call = Blocks \/
   (exists c, (Counted.waiting rh = Some c \/ Counted.current rh = Some c) /\
      snd call = Returns None
        (Some (errors_New (Counted.name c ++ " count too high.  Slow your roll!")))) \/
   (exists cli, Counted.client rh = Some cli /\
      snd call = match Do cli req with
                 | (_, Some e) => Returns None (Some e)
                 | (resp, None) => Returns resp None
                 end)) /\
  (forall s wa,
     Counted.sem rh = Some s -> Counted.waiting rh = Some wa ->
     Counted.count wa <> Counted.max wa ->
     (forall s', Acquire s Background (if weight <? 1 then 1 else weight) w
                 <> Granted s') ->
     snd call = Blocks).
Proof.
  intros Hc call. split; [reflexivity|].
  open_handler rh Hc.
  assert (Hwt : 1 <= (if weight <? 1 then 1 else weight))
    by (destruct (Z.ltb_spec weight 1); lia).
  assert (Hnofail : forall e, Acquire se Background
                      (if weight <? 1 then 1 else weight) w <> Failed e).
  { intros e. unfold Acquire, wait_done.
    repeat match goal with
           | |- context [if ?b then _ else _] => destruct b
           end; discriminate. }
  destruct (Z.eq_dec (Counted.count wa) (Counted.max wa)) as [Hfull|Hroom].
  { unfold call. rewrite call_waiting_full by assumption. simpl.
    split; [discriminate|]. split.
    - right; left. exists wa. auto.
    - intros s wa0 _ E. injection E as <-. contradiction. }
  destruct (Acquire se Background (if weight <? 1 then 1 else weight) w)
    as [s'|e|] eqn:Hacq.
  - destruct (Acquire_then_Release _ _ _ _ _ Hgate Hwt Hacq)
      as (_ & s'' & Hrel & _).
    unfold call.
    rewrite (call_admitted _ _ _ _ _ _ _ _ _ _ _ Hwa Hwar Hcu Hcur s' s'')
      by assumption.
    split; [|split].
    + destruct (Counted.count cu =? Counted.max cu); [discriminate|].
      destruct (Do cl req) as [resp [e|]]; discriminate.
    + destruct (Counted.count cu =? Counted.max cu).
      * right; left. exists cu. auto.
      * right; right. exists cl. split; [reflexivity|].
        destruct (Do cl req) as [resp [e|]]; reflexivity.
    + intros s wa0 E _ _ Hno. injection E as <-.
      exfalso. apply (Hno s'). exact Hacq.
  - exfalso. apply (Hnofail e). reflexivity.
  - unfold call. rewrite call_waits_forever by assumption. simpl.
    split; [discriminate|]. split; [left; reflexivity|]. reflexivity.
Qed.

(** C1, amended: in the revision with the mutex-guarded integers, a call
    of DoWeightedContext or DoWeighted with a request and a weight above
    math.MaxInt32 returns the error "Too heavy, drop some weight",
    whatever the context and the other goroutines do, and leaves the
    handler (both counters and the semaphore) as it was.  The revision
    with counter structs rejects no weight: on a constructed handler whose
    waiting counter has room, a call with a weight above the gate's total
    weight and a nil or background context is counted as waiting and
    waits at the gate forever. *)
Theorem C1_too_heavy_fails_fast
    (rh : Locked.RequestHandler) (rhc : Counted.RequestHandler)
    (s : Weighted) (wa : Counted.counter)
    (req : Request) (weight : Z) (ctx : option Context) (w : World) :
  let OverweightRequest :=
    Returns None (Some (errors_New "Too heavy, drop some weight")) in
  (MaxInt32 < weight ->
   exec (Locked.DoWeightedContext (Some req) weight ctx w) rh = (rh, OverweightRequest) /\
   exec (Locked.DoWeighted (Some req) weight w) rh = (rh, OverweightRequest)) /\
  (constructed rhc ->
   Counted.sem rhc = Some s -> Counted.waiting rhc = Some wa ->
   Counted.count wa <> Counted.max wa ->
   size s < weight ->
   ctx = None \/ ctx = Some Background ->
   exec (Counted.DoWeightedContext (Some req) weight ctx w) rhc
   = (Counted.set_waiting rhc (Counted.incr wa), Blocks)).
Proof.
  intros Over. split.
  - intros Hw. unfold Locked.DoWeighted, Locked.DoWeightedContext.
    destruct (Z.gtb_spec weight MaxInt32) as [_|Hle]; [|lia].
    split; reflexivity.
  - intros Hc Hs Hw Hroom Hbig Hctx.
    open_handler rhc Hc. simpl in Hs, Hw.
    injection Hs as <-. injection Hw as <-.
    apply call_waits_forever; try assumption.
    destruct Hgate as [Hsize Hheld].
    assert (Hn : (if weight <? 1 then 1 else weight) = weight)
      by (destruct (Z.ltb_spec weight 1); lia).
    rewrite Hn. unfold Acquire.
    destruct Hctx as [-> | ->];
      (destruct (Z.leb_spec weight (size se - cur se)); [lia|];
       destruct (Z.ltb_spec (size se) weight); [reflexivity|lia]).
Qed.


(** ** More on the revision with counter structs *)

(** A granted weight, given back, leaves the gate to the other holders:
    as it was when they released nothing. *)
Lemma Acquire_Release_held (s s' : Weighted) (ctx : Context) (n : Z) (w : World) :
  0 <= cur s -> Acquire s ctx n w = Granted s' ->
  exists s'', Release s' n = Some s'' /\ size s'' = size s /\
              0 <= cur s'' <= cur s /\ (released w <= 0 -> s'' = s).
Proof.
  intros Hc. unfold Acquire, Release, wait_done.
  assert (G : forall k, 0 <= k <= cur s -> (released w <= 0 -> k = 0) ->
            forall s', Granted {| size := size s; cur := cur s - k + n |} = Granted s' ->
            exists s'', (let c := cur s' - n in
                 if c <? 0 then None else Some {| size := size s'; cur := c |}) = Some s'' /\
                size s'' = size s /\ 0 <= cur s'' <= cur s /\
                (released w <= 0 -> s'' = s)).
  { intros k Hk Hz s0 E. injection E as <-. simpl.
    destruct (Z.ltb_spec (cur s - k + n - n) 0); [lia|].
    eexists; split; [reflexivity|]. simpl. repeat split; try lia.
    intros Hrel. rewrite (Hz Hrel).
    replace (cur s - 0 + n - n) with (cur s) by lia. destruct s; reflexivity. }
  destruct ctx as [|e|e]; try discriminate;
    (destruct (Z.leb_spec n (size s - cur s));
     [ replace (cur s + n) with (cur s - 0 + n) by lia; apply G; lia
     | destruct (Z.ltb_spec (size s) n); [discriminate|];
       destruct (Z.leb_spec n (size s - (cur s - Z.max 0 (Z.min (released w) (cur s)))));
       [apply G; lia | discriminate] ]).
Qed.

(** Everything one call does to a constructed handler. *)
Lemma call_effects
    (rh : Counted.RequestHandler) (req : option Request) (weight : Z)
    (ctx : option Context) (w : World) :
  constructed rh ->
  let rh' := fst (exec (Counted.DoWeightedContext req weight ctx w) rh) in
  let o := snd (exec (Counted.DoWeightedContext req weight ctx w) rh) in
  Counted.client rh' = Counted.client rh /\
  Counted.timeout rh' = Counted.timeout rh /\
  Counted.errs rh' = Counted.errs rh /\
  Counted.current rh' = Counted.current rh /\
  (if is_blocked o
   then exists wa, Counted.waiting rh = Some wa /\
                   Counted.count wa <> Counted.max wa /\
                   Counted.waiting rh' = Some (Counted.incr wa)
   else Counted.waiting rh' = Counted.waiting rh) /\
  (if is_success o
   then exists to, Counted.total rh = Some to /\
                   Counted.total rh' = Some (fst (Counted.Add to))
   else Counted.total rh' = Counted.total rh) /\
  (exists s s', Counted.sem rh = Some s /\ Counted.sem rh' = Some s' /\
     size s' = size s /\ 0 <= cur s' <= cur s /\ (released w <= 0 -> s' = s)).
Proof.
  intros Hc rh' o. subst rh' o.
  open_handler rh Hc.
  assert (Hgate0 : exists s s' : Weighted,
            Some se = Some s /\ Some se = Some s' /\
            size s' = size s /\ 0 <= cur s' <= cur s /\ (released w <= 0 -> s' = s)).
  { exists se, se. destruct Hgate as [_ Hheld]. repeat split; auto; lia. }
  destruct req as [req|]; [|simpl; repeat split; auto].
  assert (Hwt : 1 <= (if weight <? 1 then 1 else weight))
    by (destruct (Z.ltb_spec weight 1); lia).
  destruct (Z.eq_dec (Counted.count wa) (Counted.max wa)) as [Hfull|Hroom].
  { rewrite call_waiting_full by assumption. simpl. repeat split; auto. }
  destruct (Acquire se match ctx with None => Background | Some c => c end
              (if weight <? 1 then 1 else weight) w) as [s'|e|] eqn:Hacq.
  - destruct Hgate as [Hsize Hheld].
    destruct (Acquire_Release_held _ _ _ _ _ (proj1 Hheld) Hacq)
      as (s'' & Hrel & Hs'' & Hc'' & Hsame).
    rewrite (call_admitted _ _ _ _ _ _ _ _ _ _ _ Hwa Hwar Hcu Hcur s' s'')
      by assumption.
    assert (Hgate1 : exists s0 s'0 : Weighted,
              Some se = Some s0 /\ Some s'' = Some s'0 /\
              size s'0 = size s0 /\ 0 <= cur s'0 <= cur s0 /\
              (released w <= 0 -> s'0 = s0)).
    { exists se, s''. repeat split; auto; lia. }
    destruct (Counted.count cu =? Counted.max cu); [simpl; repeat split; auto|].
    destruct (Do cl req) as [resp [e|]]; simpl; repeat split; auto.
    exists to. auto.
  - rewrite (call_gate_fails _ _ _ _ _ _ _ _ _ _ _ Hwa Hwar e) by assumption.
    simpl. repeat split; auto.
  - rewrite call_waits_forever by assumption. simpl.
    repeat split; auto. exists wa. auto.
Qed.

(** X8: checkStruct returns nil exactly when none of the six
    collaborators (client, semaphore and the four counters) is nil. *)
Theorem checkStruct_nil_iff (rh : Counted.RequestHandler) :
  Counted.checkStruct rh = None <->
  Counted.client rh <> None /\ Counted.sem rh <> None /\
  Counted.current rh <> None /\ Counted.waiting rh <> None /\
  Counted.errs rh <> None /\ Counted.total rh <> None.
Proof.
  unfold Counted.checkStruct.
  destruct (Counted.client rh), (Counted.sem rh), (Counted.current rh),
           (Counted.waiting rh), (Counted.errs rh), (Counted.total rh);
    simpl; split; intros Hx;
    try discriminate; try reflexivity;
    try (repeat split; discriminate);
    exfalso; tauto.
Qed.

(** X9: in each revision the handler NewRequestHandler builds passes
    checkStruct, has an empty gate of size at least 1, keeps a timeout of
    at least one second, and holds the given client, or the default
    client for nil.  With counter structs all four readings start at
    zero. *)
Theorem constructors_build_usable_handlers
    (tweight timeout : Z) (cli : option Client) :
  let client_or_default :=
    Some match cli with Some c => c | None => DefaultClient end in
  (let rh := Counted.NewRequestHandler tweight timeout cli in
   Counted.checkStruct rh = None /\ Counted.client rh = client_or_default /\
   (exists s, Counted.sem rh = Some s /\ 1 <= size s /\ cur s = 0) /\
   Second <= Counted.timeout rh /\
   Counted.GetWaitingWeight rh = 0 /\ Counted.GetCurrentWeight rh = 0 /\
   Counted.GetErrorCount rh = 0 /\ Counted.GetTotalCount rh = 0) /\
  (let rh := Locked.NewRequestHandler tweight timeout cli in
   Locked.checkStruct rh = None /\ Locked.client rh = client_or_default /\
   (exists s, Locked.sem rh = Some s /\ 1 <= size s /\ cur s = 0) /\
   Second <= Locked.timeout rh /\
   Locked.GetWaitingWeight rh = 0 /\ Locked.GetCurrentWeight rh = 0) /\
  (let rh := Plain.NewRequestHandler tweight timeout cli in
   Plain.checkStruct rh = None /\ Plain.client rh = client_or_default /\
   (exists s, Plain.sem rh = Some s /\ 1 <= size s /\ cur s = 0) /\
   Second <= Plain.timeout rh).
Proof.
  intros cod.
  assert (Hsz : 1 <= (if tweight <? 1 then 1
                      else if tweight >? MaxInt32 then MaxInt32 else tweight)).
  { destruct (Z.ltb_spec tweight 1), (Z.gtb_spec tweight MaxInt32);
      unfold MaxInt32 in *; lia. }
  assert (Hsz' : 1 <= (if tweight <? 1 then 1 else tweight))
    by (destruct (Z.ltb_spec tweight 1); lia).
  assert (Ht : Second <= (if timeout <? 1 * Second then 1 * Minute
                          else if timeout >? Hour then 1 * Minute else timeout)).
  { destruct (Z.ltb_spec timeout (1 * Second)), (Z.gtb_spec timeout Hour);
      unfold Hour, Minute, Second in *; lia. }
  assert (Ht' : Second <= (if timeout <? 1 * Second then 1 * Minute else timeout)).
  { destruct (Z.ltb_spec timeout (1 * Second));
      unfold Hour, Minute, Second in *; lia. }
  unfold Counted.NewRequestHandler, Locked.NewRequestHandler,
    Plain.NewRequestHandler, Counted.checkStruct, Locked.checkStruct,
    Plain.checkStruct.
  cbn [Counted.client Counted.sem Counted.timeout Counted.current
       Counted.waiting Counted.total Counted.errs
       Locked.client Locked.sem Locked.timeout
       Plain.client Plain.sem Plain.timeout].
  unfold NewWeighted.
  repeat split; try (destruct cli; reflexivity); try assumption;
    eexists; (split; [reflexivity|]); simpl; split; (assumption || reflexivity).
Qed.

(** X10: on a handler with a nil collaborator DoWeightedContext,
    DoWeighted and Do answer a request with the error checkStruct
    reports; they do not panic and leave the handler as it is. *)
Theorem not_initialized_fails_cleanly
    (rh : Counted.RequestHandler) (req : Request) (weight : Z)
    (ctx : option Context) (w : World) (e : error) :
  Counted.checkStruct rh = Some e ->
  exec (Counted.DoWeightedContext (Some req) weight ctx w) rh
  = (rh, Returns None (Some e)) /\
  exec (Counted.DoWeighted (Some req) weight w) rh = (rh, Returns None (Some e)) /\
  exec (Counted.Do_ (Some req) w) rh = (rh, Returns None (Some e)).
Proof.
  intros Hcs. unfold Counted.Do_, Counted.DoWeighted.
  repeat split; apply call_not_initialized; assumption.
Qed.

(** What one call does to the four readings. *)
Lemma call_readings
    (rh : Counted.RequestHandler) (req : option Request) (weight : Z)
    (ctx : option Context) (w : World) :
  constructed rh ->
  let rh' := fst (exec (Counted.DoWeightedContext req weight ctx w) rh) in
  let o := snd (exec (Counted.DoWeightedContext req weight ctx w) rh) in
  Counted.GetWaitingWeight rh' =
    Counted.GetWaitingWeight rh + (if is_blocked o then 1 else 0) /\
  Counted.GetCurrentWeight rh' = Counted.GetCurrentWeight rh /\
  Counted.GetErrorCount rh' = Counted.GetErrorCount rh /\
  exists to to', Counted.total rh = Some to /\ Counted.total rh' = Some to' /\
    Counted.max to' = Counted.max to /\
    (if is_success o
     then Counted.count to < Counted.max to ->
          Counted.count to' = Counted.count to + 1
     else to' = to).
Proof.
  intros Hc rh' o.
  destruct (call_effects rh req weight ctx w Hc)
    as (_ & _ & Herrs & Hcurrent & Hwaiting & Htotal & _).
  fold rh' in Herrs, Hcurrent, Hwaiting, Htotal. fold o in Hwaiting, Htotal.
  unfold Counted.GetWaitingWeight, Counted.GetCurrentWeight,
    Counted.GetErrorCount.
  rewrite Herrs, Hcurrent.
  clearbody rh' o. open_handler rh Hc. simpl in *.
  repeat split.
  - destruct (is_blocked o).
    + destruct Hwaiting as (wa0 & E & Hroom & ->). injection E as <-.
      simpl. unfold Counted.Count. destruct Hwa as [Hc Hm].
      rewrite wrap_small by (unfold is_int, MinInt64, MaxInt64 in *; lia).
      reflexivity.
    + rewrite Hwaiting. simpl. lia.
  - destruct (is_success o).
    + destruct Htotal as (to0 & E & ->). injection E as <-.
      exists to, (fst (Counted.Add to)). repeat split.
      * apply (step_keeps_fields Counted.OpAdd to).
      * intros Hroom. unfold Counted.Add.
        destruct (Z.eqb_spec (Counted.count to) (Counted.max to)); [lia|].
        simpl. destruct Hto as [Hc Hm].
        apply wrap_small. unfold is_int, MinInt64, MaxInt64 in *. lia.
    + exists to, to. rewrite Htotal. repeat split.
Qed.

(** X11: whatever way a call on a constructed handler ends, by a
    response, by any of its errors or by the panic, as long as it ends the
    waiting counter and the current counter are as they were before
    it. *)
Theorem ended_call_leaves_no_weight
    (rh rh' : Counted.RequestHandler) (req : option Request) (weight : Z)
    (ctx : option Context) (w : World) (o : Outcome) :
  constructed rh ->
  exec (Counted.DoWeightedContext req weight ctx w) rh = (rh', o) ->
  o <> Blocks ->
  Counted.waiting rh' = Counted.waiting rh /\
  Counted.current rh' = Counted.current rh.
Proof.
  intros Hc Hcall Hends.
  destruct (call_effects rh req weight ctx w Hc)
    as (_ & _ & _ & Hcurrent & Hwaiting & _).
  rewrite Hcall in Hcurrent, Hwaiting. simpl in Hcurrent, Hwaiting.
  split; [|assumption].
  destruct o; simpl in Hwaiting; try assumption. contradiction.
Qed.

(** X12: a call that waits at the gate forever has raised the waiting
    reading by one, whatever its weight, and nothing else. *)
Theorem waiting_call_counts_once
    (rh rh' : Counted.RequestHandler) (req : option Request) (weight : Z)
    (ctx : option Context) (w : World) :
  constructed rh ->
  exec (Counted.DoWeightedContext req weight ctx w) rh = (rh', Blocks) ->
  Counted.GetWaitingWeight rh' = Counted.GetWaitingWeight rh + 1 /\
  Counted.current rh' = Counted.current rh /\
  Counted.total rh' = Counted.total rh /\
  Counted.errs rh' = Counted.errs rh /\
  Counted.sem rh' = Counted.sem rh.
Proof.
  intros Hc Hcall.
  destruct (call_readings rh req weight ctx w Hc) as (Hw & _).
  destruct (call_effects rh req weight ctx w Hc)
    as (_ & _ & Herrs & Hcurrent & _ & Htotal & _).
  rewrite Hcall in *. simpl in *. repeat split; try assumption.
  revert Hcall. destruct req as [req|]; [|discriminate].
  pose proof Hc as Hc'. open_handler rh Hc'.
  assert (Hwt : 1 <= (if weight <? 1 then 1 else weight))
    by (destruct (Z.ltb_spec weight 1); lia).
  destruct (Z.eq_dec (Counted.count wa) (Counted.max wa)) as [Hfull|Hroom].
  { rewrite call_waiting_full by assumption. discriminate. }
  destruct (Acquire se match ctx with None => Background | Some c => c end
              (if weight <? 1 then 1 else weight) w) as [s'|e|] eqn:Hacq.
  - destruct (Acquire_then_Release _ _ _ _ _ Hgate Hwt Hacq)
      as (_ & s'' & Hrel & _).
    rewrite (call_admitted _ _ _ _ _ _ _ _ _ _ _ Hwa Hwar Hcu Hcur s' s'')
      by assumption.
    destruct (Counted.count cu =? Counted.max cu); [discriminate|].
    destruct (Do cl req) as [resp [e|]]; discriminate.
  - rewrite (call_gate_fails _ _ _ _ _ _ _ _ _ _ _ Hwa Hwar e) by assumption.
    discriminate.
  - rewrite call_waits_forever by assumption.
    intros E. injection E as <-. reflexivity.
Qed.

(** X13: a call changes the total counter exactly when it returns
    without an error, and then by one Add; the response it returns then is
    the one the client gave. *)
Theorem total_counts_successful_calls
    (rh rh' : Counted.RequestHandler) (req : Request) (weight : Z)
    (ctx : option Context) (w : World) (o : Outcome) :
  constructed rh ->
  exec (Counted.DoWeightedContext (Some req) weight ctx w) rh = (rh', o) ->
  (forall resp, o = Returns resp None ->
     (exists to, Counted.total rh = Some to /\
                 Counted.total rh' = Some (fst (Counted.Add to))) /\
     (exists cli, Counted.client rh = Some cli /\ Do cli req = (resp, None))) /\
  ((forall resp, o <> Returns resp None) ->
     Counted.total rh' = Counted.total rh).
Proof.
  intros Hc Hcall.
  destruct (call_effects rh (Some req) weight ctx w Hc)
    as (_ & _ & _ & _ & _ & Htotal & _).
  rewrite Hcall in Htotal. simpl in Htotal. split.
  - intros resp ->. simpl in Htotal. split; [exact Htotal|].
    revert Hcall. pose proof Hc as Hc'. open_handler rh Hc'.
    assert (Hwt : 1 <= (if weight <? 1 then 1 else weight))
      by (destruct (Z.ltb_spec weight 1); lia).
    destruct (Z.eq_dec (Counted.count wa) (Counted.max wa)) as [Hfull|Hroom].
    { rewrite call_waiting_full by assumption. discriminate. }
    destruct (Acquire se match ctx with None => Background | Some c => c end
                (if weight <? 1 then 1 else weight) w) as [s'|e|] eqn:Hacq.
    + destruct (Acquire_then_Release _ _ _ _ _ Hgate Hwt Hacq)
        as (_ & s'' & Hrel & _).
      rewrite (call_admitted _ _ _ _ _ _ _ _ _ _ _ Hwa Hwar Hcu Hcur s' s'')
        by assumption.
      destruct (Counted.count cu =? Counted.max cu); [discriminate|].
      destruct (Do cl req) as [resp0 [e|]] eqn:Hdo; [discriminate|].
      intros E. injection E as _ <-. exists cl. auto.
    + rewrite (call_gate_fails _ _ _ _ _ _ _ _ _ _ _ Hwa Hwar e) by assumption.
      discriminate.
    + rewrite call_waits_forever by assumption. discriminate.
  - intros Hfail. destruct o as [resp [e|]| |]; simpl in Htotal; try assumption.
    exfalso. apply (Hfail resp). reflexivity.
Qed.

(** X14: no call leaves the gate holding more than before it: the size
    is untouched, the held weight does not grow whatever the outcome, and
    when no other holder released anything meanwhile the gate is exactly
    as it was. *)
Theorem gate_weight_is_given_back
    (rh : Counted.RequestHandler) (req : option Request) (weight : Z)
    (ctx : option Context) (w : World) :
  constructed rh ->
  let rh' := fst (exec (Counted.DoWeightedContext req weight ctx w) rh) in
  exists s s', Counted.sem rh = Some s /\ Counted.sem rh' = Some s' /\
    size s' = size s /\ 0 <= cur s' <= cur s /\
    (released w <= 0 -> s' = s).
Proof.
  intros Hc rh'.
  destruct (call_effects rh req weight ctx w Hc) as (_ & _ & _ & _ & _ & _ & Hg).
  exact Hg.
Qed.

Lemma serve_cons (c : invocation) (calls : list invocation)
    (rh : Counted.RequestHandler) :
  let first := exec (Counted.DoWeightedContext (inv_req c) (inv_weight c)
                       (inv_ctx c) (inv_world c)) rh in
  serve (c :: calls) rh =
  (fst (serve calls (fst first)), (snd first :: snd (serve calls (fst first)))%list).
Proof.
  simpl.
  destruct (exec (Counted.DoWeightedContext (inv_req c) (inv_weight c)
                    (inv_ctx c) (inv_world c)) rh) as [rh1 o]. simpl.
  destruct (serve calls rh1) as [rh2 os]. reflexivity.
Qed.

Lemma how_many_cons (test : Outcome -> bool) (o : Outcome) (os : list Outcome) :
  how_many test (o :: os) = (if test o then 1 else 0) + how_many test os.
Proof.
  unfold how_many. simpl. destruct (test o); simpl length; lia.
Qed.

(** X15: after any sequence of calls on a constructed handler the
    handler is still constructed, the error reading and the current
    reading are what they were, the waiting reading has grown by the
    number of calls that wait forever, and the total reading, as long as
    it has not reached its maximum, has grown by the number of calls that
    returned without an error. *)
Theorem readings_after_calls (calls : list invocation)
    (rh : Counted.RequestHandler) :
  constructed rh ->
  let rh' := fst (serve calls rh) in
  let os := snd (serve calls rh) in
  constructed rh' /\
  Counted.GetErrorCount rh' = Counted.GetErrorCount rh /\
  Counted.GetCurrentWeight rh' = Counted.GetCurrentWeight rh /\
  Counted.GetWaitingWeight rh' =
    Counted.GetWaitingWeight rh + how_many is_blocked os /\
  (forall to, Counted.total rh = Some to ->
     Counted.count to + how_many is_success os <= Counted.max to ->
     Counted.GetTotalCount rh' = Counted.GetTotalCount rh + how_many is_success os).
Proof.
  revert rh. induction calls as [|c calls IH]; intros rh Hc.
  - simpl. unfold how_many. simpl. repeat split; try assumption; try lia.
  - rewrite serve_cons. cbn [fst snd].
    set (first := exec (Counted.DoWeightedContext (inv_req c) (inv_weight c)
                          (inv_ctx c) (inv_world c)) rh).
    pose proof (DoWeightedContext_keeps_constructed rh (inv_req c)
                  (inv_weight c) (inv_ctx c) (inv_world c) Hc) as Hc1.
    destruct (call_readings rh (inv_req c) (inv_weight c) (inv_ctx c)
                (inv_world c) Hc)
      as (Hw & Hcu & He & to0 & to1 & Ht0 & Ht1 & Hm & Hcount).
    fold first in Hc1, Hw, Hcu, He, Ht1, Hcount.
    destruct (IH (fst first) Hc1) as (Hc2 & He2 & Hcu2 & Hw2 & Ht2).
    split; [assumption|]. split; [congruence|]. split; [congruence|].
    split; [rewrite how_many_cons; lia|].
    intros to Hto Hroom. rewrite Ht0 in Hto. injection Hto as <-.
    assert (Hsucc : 0 <= how_many is_success (snd (serve calls (fst first))))
      by (unfold how_many; lia).
    rewrite how_many_cons in Hroom. rewrite how_many_cons.
    assert (Hstart : Counted.GetTotalCount rh = Counted.count to0)
      by (unfold Counted.GetTotalCount; rewrite Ht0; reflexivity).
    assert (Hmid : Counted.GetTotalCount (fst first) = Counted.count to1)
      by (unfold Counted.GetTotalCount; rewrite Ht1; reflexivity).
    destruct (is_success (snd first)).
    + rewrite (Ht2 to1 Ht1); rewrite ?Hm, ?Hcount, ?Hmid, ?Hstart; lia.
    + subst to1. rewrite (Ht2 to0 Ht1); rewrite ?Hmid, ?Hstart; lia.
Qed.

(** X16: the first call on a fresh handler, with a weight that fits the
    total weight and a context that is not done yet, is admitted at once:
    it returns what the client answers (the response only when there is no
    error), leaves the gate empty, and the total reading is 1 after a
    success and 0 otherwise. *)
Theorem first_call_is_admitted
    (tweight timeout : Z) (cli : Client) (req : Request) (weight : Z)
    (ctx : option Context) (w : World) :
  weight <= 1 \/ (weight <= tweight /\ weight <= MaxInt32) ->
  (forall e, ctx <> Some (Done e)) ->
  let rh := Counted.NewRequestHandler tweight timeout (Some cli) in
  let call := exec (Counted.DoWeightedContext (Some req) weight ctx w) rh in
  snd call = match Do cli req with
             | (_, Some e) => Returns None (Some e)
             | (resp, None) => Returns resp None
             end /\
  Counted.sem (fst call) = Counted.sem rh /\
  Counted.GetTotalCount (fst call) = if is_success (snd call) then 1 else 0.
Proof.
  intros Hfit Hctx rh call.
  set (total := if tweight <? 1 then 1
                else if tweight >? MaxInt32 then MaxInt32 else tweight).
  set (wt := if weight <? 1 then 1 else weight).
  assert (Hwt : 1 <= wt <= total).
  { unfold wt, total.
    destruct (Z.ltb_spec weight 1), (Z.ltb_spec tweight 1),
             (Z.gtb_spec tweight MaxInt32); unfold MaxInt32 in *; lia. }
  assert (Hacq : Acquire (NewWeighted total)
                   match ctx with None => Background | Some c => c end wt w
                 = Granted {| size := total; cur := 0 + wt |}).
  { unfold Acquire, NewWeighted. cbn [size cur].
    destruct (Z.leb_spec wt (total - 0)); [|lia].
    destruct ctx as [[|e|e]|]; try reflexivity.
    exfalso. apply (Hctx e). reflexivity. }
  assert (Hrel : Release {| size := total; cur := 0 + wt |} wt
                 = Some (NewWeighted total)).
  { unfold Release, NewWeighted. cbn [size cur].
    replace (0 + wt - wt) with 0 by lia. reflexivity. }
  assert (Hnew : forall name r, bounded (Counted.newCounter name 0 r)).
  { intros. apply newCounter_bounded. unfold MaxInt64. lia. }
  unfold call, rh, Counted.NewRequestHandler. fold total.
  rewrite (call_admitted cli (NewWeighted total) _ _ _ _ _ req weight ctx w
             (Hnew _ _) eq_refl (Hnew _ _) eq_refl _ _
             ltac:(simpl; unfold MaxInt64; lia) Hacq Hrel).
  change (Counted.count (Counted.newCounter "Running" 0 false)
          =? Counted.max (Counted.newCounter "Running" 0 false)) with false.
  cbv iota.
  destruct (Do cli req) as [resp [e|]]; repeat split.
Qed.

(** A call can only wait forever under a context that is never done. *)
Lemma blocks_only_without_deadline
    (rh : Counted.RequestHandler) (req : option Request) (weight : Z)
    (c : Context) (w : World) :
  constructed rh ->
  snd (exec (Counted.DoWeightedContext req weight (Some c) w) rh) = Blocks ->
  c = Background.
Proof.
  intros Hc. destruct req as [req|]; [|discriminate].
  open_handler rh Hc.
  assert (Hwt : 1 <= (if weight <? 1 then 1 else weight))
    by (destruct (Z.ltb_spec weight 1); lia).
  destruct (Z.eq_dec (Counted.count wa) (Counted.max wa)) as [Hfull|Hroom].
  { rewrite call_waiting_full by assumption. discriminate. }
  destruct (Acquire se c (if weight <? 1 then 1 else weight) w)
    as [s'|e|] eqn:Hacq.
  - destruct (Acquire_then_Release _ _ _ _ _ Hgate Hwt Hacq)
      as (_ & s'' & Hrel & _).
    rewrite (call_admitted _ _ _ _ _ _ _ _ _ (Some c) _ Hwa Hwar Hcu Hcur s' s'')
      by assumption.
    destruct (Counted.count cu =? Counted.max cu); [discriminate|].
    destruct (Do cl req) as [resp [e|]]; discriminate.
  - rewrite (call_gate_fails _ _ _ _ _ _ _ _ _ (Some c) _ Hwa Hwar e)
      by assumption.
    discriminate.
  - intros _. revert Hacq. unfold Acquire, wait_done.
    destruct c; [reflexivity|discriminate|].
    repeat match goal with
           | |- context [if ?b then _ else _] => destruct b
           end; discriminate.
Qed.

(** X17: on a constructed handler with a positive timeout, DoWeighted and
    Do never wait forever: the deadline of the timeout ends the wait. *)
Theorem DoWeighted_never_waits_forever
    (rh : Counted.RequestHandler) (req : option Request) (weight : Z) (w : World) :
  constructed rh -> 0 < Counted.timeout rh ->
  snd (exec (Counted.DoWeighted req weight w) rh) <> Blocks /\
  snd (exec (Counted.Do_ req w) rh) <> Blocks.
Proof.
  intros Hc Ht. unfold Counted.Do_, Counted.DoWeighted.
  split; intros Hb;
    apply blocks_only_without_deadline in Hb; try assumption;
    unfold BackgroundWithTimeout in Hb;
    destruct (Z.leb_spec (Counted.timeout rh) 0); discriminate.
Qed.

(** ** The two earlier revisions *)

Lemma wrap_add_sub (a k : Z) : is_int a -> wrap (wrap (a + k) - k) = a.
Proof.
  unfold is_int, MinInt64, MaxInt64, wrap. intros Ha.
  set (M := 18446744073709551616) in *. set (h := 9223372036854775808) in *.
  replace ((a + k + h) mod M - h - k + h) with ((a + k + h) mod M - k) by ring.
  rewrite Zminus_mod_idemp_l.
  replace (a + k + h - k) with (a + h) by ring.
  rewrite Z.mod_small; subst M h; lia.
Qed.

#[local] Arguments wrap : simpl never.

Section LockedCall.
Variables (cl : Client) (se : Weighted) (ti cu wa : Z).
Variables (req : Request) (weight : Z) (c : Context) (w : World).

Let rh : Locked.RequestHandler :=
  {| Locked.client := Some cl; Locked.sem := Some se; Locked.timeout := ti;
     Locked.current := cu; Locked.waiting := wa |}.
Let call := exec (Locked.DoWeightedContext (Some req) weight (Some c) w) rh.

Hypothesis light : weight <= MaxInt32.
Hypothesis room : wa < wrap (MaxInt32 - weight).
Hypothesis wa_int : is_int wa.
Hypothesis cu_int : is_int cu.

(** Running the body up to the call of [Acquire]. *)
Ltac to_the_gate :=
  unfold call, rh, Locked.DoWeightedContext;
  destruct (Z.gtb_spec weight MaxInt32); [lia|];
  unfold exec, guard, gets, Locked.update, leave, pure, bind;
  cbn [Locked.checkStruct Locked.client Locked.sem Locked.waiting
       Locked.current Locked.timeout Locked.set_waiting notnil negb];
  destruct (Z.geb_spec wa (wrap (MaxInt32 - weight))); [lia|];
  unfold Locked.sem_Acquire;
  cbn [Locked.checkStruct Locked.client Locked.sem Locked.waiting
       Locked.current Locked.timeout Locked.set_waiting notnil negb].

Lemma locked_call_gate_fails (e : error) :
  Acquire se c weight w = Failed e -> call = (rh, Returns None (Some e)).
Proof.
  intros Hacq. to_the_gate. rewrite Hacq.
  cbn [notnil Locked.waiting Locked.set_waiting Locked.client Locked.sem
       Locked.timeout Locked.current].
  rewrite wrap_add_sub by assumption. reflexivity.
Qed.

Lemma locked_call_waits_forever :
  Acquire se c weight w = Forever ->
  call = (Locked.set_waiting rh (wrap (wa + weight)), Blocks).
Proof.
  intros Hacq. to_the_gate. rewrite Hacq. reflexivity.
Qed.

Lemma locked_call_admitted (s' s'' : Weighted) :
  Acquire se c weight w = Granted s' -> Release s' weight = Some s'' ->
  call = (Locked.set_sem rh s'', Returns (fst (Do cl req)) (snd (Do cl req))).
Proof.
  intros Hacq Hrel. to_the_gate. rewrite Hacq.
  unfold defer, bind, Locked.client_Do, Locked.sem_Release.
  cbn [notnil Locked.waiting Locked.set_waiting Locked.set_current
       Locked.set_sem Locked.client Locked.sem Locked.timeout Locked.current].
  rewrite Hrel.
  unfold rh, Locked.set_sem.
  cbn [Locked.waiting Locked.client Locked.sem Locked.timeout Locked.current].
  rewrite !wrap_add_sub by assumption. reflexivity.
Qed.

End LockedCall.

(** Opening a handler of the mutex revision that satisfies [locked_ok]. *)
Ltac open_locked rh Hok :=
  let cl := fresh "cl" in let se := fresh "se" in
  destruct rh as [cl se ti cu wa];
  destruct Hok as (Hparts & Hwa & Hcu);
  cbn [Locked.client Locked.sem Locked.waiting Locked.current] in Hparts, Hwa, Hcu;
  destruct cl as [cl|], se as [se|]; try contradiction.

(** X18: in the revision with the mutex-guarded integers a failed
    acquisition returns the semaphore's error to the caller and leaves the
    handler, the waiting weight included, exactly as it was. *)
Theorem locked_failed_acquisition_returns_error
    (rh : Locked.RequestHandler) (s : Weighted) (req : Request) (weight : Z)
    (c : Context) (w : World) (e : error) :
  locked_ok rh -> Locked.sem rh = Some s ->
  weight <= MaxInt32 ->
  Locked.waiting rh < wrap (MaxInt32 - weight) ->
  Acquire s c weight w = Failed e ->
  exec (Locked.DoWeightedContext (Some req) weight (Some c) w) rh
  = (rh, Returns None (Some e)).
Proof.
  intros Hok Hs Hlight Hroom Hacq. open_locked rh Hok.
  cbn [Locked.sem Locked.waiting] in Hs, Hroom. injection Hs as <-.
  apply locked_call_gate_fails; assumption.
Qed.

Lemma locked_call_too_heavy
    (rh : Locked.RequestHandler) (req : Request) (weight : Z)
    (ctx : option Context) (w : World) :
  MaxInt32 < weight ->
  exec (Locked.DoWeightedContext (Some req) weight ctx w) rh
  = (rh, Returns None (Some (errors_New "Too heavy, drop some weight"))).
Proof.
  intros Hheavy. unfold Locked.DoWeightedContext.
  destruct (Z.gtb_spec weight MaxInt32); [reflexivity|lia].
Qed.

Lemma locked_call_waiting_full
    (rh : Locked.RequestHandler) (req : Request) (weight : Z)
    (ctx : option Context) (w : World) :
  Locked.checkStruct rh = None ->
  weight <= MaxInt32 ->
  wrap (MaxInt32 - weight) <= Locked.waiting rh ->
  exec (Locked.DoWeightedContext (Some req) weight ctx w) rh
  = (rh, Returns None (Some (errors_New "Too much waiting! Slow your roll!"))).
Proof.
  intros Hcs Hlight Hfull. unfold Locked.DoWeightedContext.
  destruct (Z.gtb_spec weight MaxInt32); [lia|].
  unfold exec, guard, gets, leave, pure, bind. rewrite Hcs.
  destruct (Z.geb_spec (Locked.waiting rh) (wrap (MaxInt32 - weight))); [|lia].
  reflexivity.
Qed.

(** X19: in the revision with the mutex-guarded integers a call with a
    context never panics, and however it ends, by the client's answer or
    by any of its errors, the waiting weight and the current weight are
    what they were before the call, also when adding the weight
    overflows. *)
Theorem locked_call_restores_weights
    (rh rh' : Locked.RequestHandler) (req : option Request) (weight : Z)
    (c : Context) (w : World) (o : Outcome) :
  locked_ok rh ->
  exec (Locked.DoWeightedContext req weight (Some c) w) rh = (rh', o) ->
  o <> Panics /\
  (o <> Blocks ->
   Locked.GetWaitingWeight rh' = Locked.GetWaitingWeight rh /\
   Locked.GetCurrentWeight rh' = Locked.GetCurrentWeight rh).
Proof.
  intros Hok Hcall. destruct req as [req|].
  2:{ injection Hcall as <- <-. split; [discriminate|]. auto. }
  destruct (Z.lt_ge_cases MaxInt32 weight) as [Hheavy|Hlight].
  { rewrite locked_call_too_heavy in Hcall by assumption.
    injection Hcall as <- <-. split; [discriminate|]. auto. }
  open_locked rh Hok.
  destruct (Z.lt_ge_cases wa (wrap (MaxInt32 - weight))) as [Hroom|Hfull].
  2:{ rewrite locked_call_waiting_full in Hcall by (reflexivity || assumption).
      injection Hcall as <- <-. split; [discriminate|]. auto. }
  destruct (Acquire se c weight w) as [s'|e|] eqn:Hacq.
  - destruct (Acquire_Release_held _ _ _ _ _ Hparts Hacq) as (s'' & Hrel & _).
    rewrite (locked_call_admitted cl se ti cu wa req weight c w) with (s' := s') (s'' := s'')
      in Hcall by assumption.
    injection Hcall as <- <-. split; [discriminate|]. auto.
  - rewrite (locked_call_gate_fails cl se ti cu wa req weight c w) with (e := e)
      in Hcall by assumption.
    injection Hcall as <- <-. split; [discriminate|]. auto.
  - rewrite locked_call_waits_forever in Hcall by assumption.
    injection Hcall as <- <-. split; [discriminate|]. intros Hno. contradiction.
Qed.

(** X20: in the revision with the mutex-guarded integers an admitted call
    hands back the client's response and the client's error together,
    untouched, and the gate gets its weight back. *)
Theorem locked_admitted_call_passes_answer
    (rh : Locked.RequestHandler) (s s' : Weighted) (cli : Client)
    (req : Request) (weight : Z) (c : Context) (w : World) :
  locked_ok rh -> Locked.sem rh = Some s -> Locked.client rh = Some cli ->
  weight <= MaxInt32 ->
  Locked.waiting rh < wrap (MaxInt32 - weight) ->
  Acquire s c weight w = Granted s' ->
  let call := exec (Locked.DoWeightedContext (Some req) weight (Some c) w) rh in
  snd call = Returns (fst (Do cli req)) (snd (Do cli req)) /\
  exists s'', Locked.sem (fst call) = Some s'' /\
              size s'' = size s /\ 0 <= cur s'' <= cur s /\
              (released w <= 0 -> s'' = s).
Proof.
  intros Hok Hs Hcli Hlight Hroom Hacq call. unfold call.
  open_locked rh Hok.
  cbn [Locked.sem Locked.client Locked.waiting] in Hs, Hcli, Hroom.
  injection Hs as <-. injection Hcli as <-.
  destruct (Acquire_Release_held _ _ _ _ _ Hparts Hacq)
    as (s'' & Hrel & Hsize & Hheld & Hsame).
  rewrite (locked_call_admitted cl se ti cu wa req weight c w) with (s' := s') (s'' := s'')
    by assumption.
  split; [reflexivity|]. exists s''. auto.
Qed.

(** ** The first revision, case by case *)

Section PlainCall.
Variables (cl : Client) (se : Weighted) (ti : Z).
Variables (req : Request) (weight : Z) (c : Context) (w : World).

Let rh : Plain.RequestHandler :=
  {| Plain.client := Some cl; Plain.sem := Some se; Plain.timeout := ti |}.
Let call := exec (Plain.DoWeightedContext (Some req) weight (Some c) w) rh.

Ltac at_the_gate :=
  unfold call, rh, Plain.DoWeightedContext;
  unfold exec, guard, gets, leave, pure, bind, Plain.sem_Acquire;
  cbn [Plain.checkStruct Plain.client Plain.sem Plain.timeout notnil negb].

Lemma plain_call_gate_fails (e : error) :
  Acquire se c weight w = Failed e -> call = (rh, Returns None (Some e)).
Proof.
  intros Hacq. at_the_gate. rewrite Hacq. reflexivity.
Qed.

Lemma plain_call_waits_forever :
  Acquire se c weight w = Forever -> call = (rh, Blocks).
Proof.
  intros Hacq. at_the_gate. rewrite Hacq. reflexivity.
Qed.

Lemma plain_call_admitted (s' s'' : Weighted) :
  Acquire se c weight w = Granted s' -> Release s' weight = Some s'' ->
  call = (Plain.set_sem rh s'', Returns (fst (Do cl req)) (snd (Do cl req))).
Proof.
  intros Hacq Hrel. at_the_gate. rewrite Hacq.
  unfold defer, bind, Plain.client_Do, Plain.sem_Release.
  cbn [Plain.client Plain.sem Plain.timeout Plain.set_sem].
  rewrite Hrel. reflexivity.
Qed.

End PlainCall.

(** X21: in the first revision a call with a context on a handler with
    its client and semaphore never panics.  When the semaphore fails it
    returns the semaphore's error and the handler is untouched; when the
    semaphore grants it returns the client's response and error together,
    and the gate holds no more than before. *)
Theorem plain_call_outcomes
    (rh : Plain.RequestHandler) (s : Weighted) (cli : Client)
    (req : Request) (weight : Z) (c : Context) (w : World) :
  plain_ok rh -> Plain.sem rh = Some s -> Plain.client rh = Some cli ->
  let call := exec (Plain.DoWeightedContext (Some req) weight (Some c) w) rh in
  snd call <> Panics /\
  (forall e, Acquire s c weight w = Failed e ->
             call = (rh, Returns None (Some e))) /\
  (forall s', Acquire s c weight w = Granted s' ->
     snd call = Returns (fst (Do cli req)) (snd (Do cli req)) /\
     exists s'', Plain.sem (fst call) = Some s'' /\
                 size s'' = size s /\ 0 <= cur s'' <= cur s /\
                 (released w <= 0 -> s'' = s)).
Proof.
  intros Hok Hs Hcli call. unfold call.
  destruct rh as [cl se ti]. unfold plain_ok in Hok.
  cbn [Plain.client Plain.sem] in Hok, Hs, Hcli.
  subst cl se.
  split; [|split].
  - destruct (Acquire s c weight w) as [s'|e|] eqn:Hacq.
    + destruct (Acquire_Release_held _ _ _ _ _ Hok Hacq) as (s'' & Hrel & _).
      rewrite (plain_call_admitted cli s ti req weight c w s' s'') by assumption.
      discriminate.
    + rewrite (plain_call_gate_fails cli s ti req weight c w e) by assumption.
      discriminate.
    + rewrite plain_call_waits_forever by assumption. discriminate.
  - intros e Hacq. apply plain_call_gate_fails. assumption.
  - intros s' Hacq.
    destruct (Acquire_Release_held _ _ _ _ _ Hok Hacq)
      as (s'' & Hrel & Hsize & Hheld & Hsame).
    rewrite (plain_call_admitted cli s ti req weight c w s' s'') by assumption.
    split; [reflexivity|]. exists s''. auto.
Qed.

Lemma plain_DoWeighted_runs
    (rh : Plain.RequestHandler) (req : option Request) (weight : Z) (w : World) :
  exec (Plain.DoWeighted req weight w) rh =
  exec (Plain.DoWeightedContext req weight
          (Some (BackgroundWithTimeout (Plain.timeout rh))) w) rh.
Proof. reflexivity. Qed.

Lemma locked_DoWeighted_runs
    (rh : Locked.RequestHandler) (req : option Request) (weight : Z) (w : World) :
  exec (Locked.DoWeighted req weight w) rh =
  exec (Locked.DoWeightedContext req weight
          (Some (BackgroundWithTimeout (Locked.timeout rh))) w) rh.
Proof. reflexivity. Qed.

(** A semaphore asked under a context that ends does not wait forever. *)
Lemma Acquire_ends (s : Weighted) (c : Context) (n : Z) (w : World) :
  c <> Background -> Acquire s c n w <> Forever.
Proof.
  intros Hc. unfold Acquire, wait_done.
  destruct c; [contradiction|discriminate|].
  repeat match goal with
         | |- context [if ?b then _ else _] => destruct b
         end; discriminate.
Qed.

(** X22: in the two earlier revisions DoWeighted on a handler with its
    client and semaphore and a positive timeout always returns: it neither
    panics nor waits forever, whatever the weight. *)
Theorem early_DoWeighted_always_returns
    (req : option Request) (weight : Z) (w : World) :
  (forall rh : Plain.RequestHandler,
     plain_ok rh -> 0 < Plain.timeout rh ->
     exists resp err,
       snd (exec (Plain.DoWeighted req weight w) rh) = Returns resp err) /\
  (forall rh : Locked.RequestHandler,
     locked_ok rh -> 0 < Locked.timeout rh ->
     exists resp err,
       snd (exec (Locked.DoWeighted req weight w) rh) = Returns resp err).
Proof.
  split; intros rh Hok Ht.
  - rewrite plain_DoWeighted_runs.
    assert (Hctx : BackgroundWithTimeout (Plain.timeout rh) <> Background)
      by (unfold BackgroundWithTimeout;
          destruct (Z.leb_spec (Plain.timeout rh) 0); discriminate).
    destruct req as [req|]; [|eexists; eexists; reflexivity].
    destruct rh as [cl se ti]. unfold plain_ok in Hok.
    cbn [Plain.client Plain.sem Plain.timeout] in *.
    destruct cl as [cl|], se as [se|]; try contradiction.
    destruct (Acquire se (BackgroundWithTimeout ti) weight w)
      as [s'|e|] eqn:Hacq.
    + destruct (Acquire_Release_held _ _ _ _ _ Hok Hacq) as (s'' & Hrel & _).
      rewrite (plain_call_admitted cl se ti req weight _ w s' s'') by assumption.
      eexists; eexists; reflexivity.
    + rewrite (plain_call_gate_fails cl se ti req weight _ w e) by assumption.
      eexists; eexists; reflexivity.
    + exfalso. apply (Acquire_ends se _ weight w Hctx). assumption.
  - rewrite locked_DoWeighted_runs.
    assert (Hctx : BackgroundWithTimeout (Locked.timeout rh) <> Background)
      by (unfold BackgroundWithTimeout;
          destruct (Z.leb_spec (Locked.timeout rh) 0); discriminate).
    destruct req as [req|]; [|eexists; eexists; reflexivity].
    destruct (Z.lt_ge_cases MaxInt32 weight) as [Hheavy|Hlight].
    { rewrite locked_call_too_heavy by assumption.
      eexists; eexists; reflexivity. }
    open_locked rh Hok. cbn [Locked.timeout] in *.
    destruct (Z.lt_ge_cases wa (wrap (MaxInt32 - weight))) as [Hroom|Hfull].
    2:{ rewrite locked_call_waiting_full by (reflexivity || assumption).
        eexists; eexists; reflexivity. }
    destruct (Acquire se (BackgroundWithTimeout ti) weight w)
      as [s'|e|] eqn:Hacq.
    + destruct (Acquire_Release_held _ _ _ _ _ Hparts Hacq) as (s'' & Hrel & _).
      rewrite (locked_call_admitted cl se ti cu wa req weight _ w)
        with (s' := s') (s'' := s'') by assumption.
      eexists; eexists; reflexivity.
    + rewrite (locked_call_gate_fails cl se ti cu wa req weight _ w)
        with (e := e) by assumption.
      eexists; eexists; reflexivity.
    + exfalso. apply (Acquire_ends se _ weight w Hctx). assumption.
Qed.

End Properties.

(** * The claims at concrete calls *)

(** C1 at a weight of 2^31 on fresh handlers of total weight 1. *)
Lemma C1_too_heavy_fails_fast_witness :
  let rh := @Locked.NewRequestHandler Sample.http 1 Minute None in
  let rhc := @Counted.NewRequestHandler Sample.http 1 Minute None in
  let OverweightRequest :=
    Returns None (Some (errors_New "Too heavy, drop some weight")) in
  (exec (Locked.DoWeightedContext (Some Sample.req) 2147483648 None Sample.idle) rh
   = (rh, OverweightRequest) /\
   exec (Locked.DoWeighted (Some Sample.req) 2147483648 Sample.idle) rh
   = (rh, OverweightRequest)) /\
  exec (Counted.DoWeightedContext (Some Sample.req) 2147483648 None Sample.idle) rhc
  = (Counted.set_waiting rhc (Counted.incr (Counted.newCounter "Waiting" 0 false)),
     Blocks).
Proof.
  intros rh rhc Over.
  destruct (@C1_too_heavy_fails_fast Sample.http rh rhc (NewWeighted 1)
              (Counted.newCounter "Waiting" 0 false) Sample.req 2147483648
              None Sample.idle) as [Fast Waits].
  split.
  - apply Fast. unfold MaxInt32. lia.
  - apply Waits.
    + unfold constructed, gate_ok, bounded, MaxInt32, MaxInt64. simpl.
      repeat split; try reflexivity; unfold MaxInt64; lia.
    + reflexivity.
    + reflexivity.
    + simpl. unfold MaxInt64. lia.
    + simpl. lia.
    + left. reflexivity.
Defined.

(** C1 as stated fails in both revisions that keep counters.  With the
    mutex-guarded integers a weight of 2 on a gate of total weight 1 is
    counted as waiting and handed to the semaphore; with the counter
    structs there is no weight check at all, and a weight of 2^31 is
    counted as waiting as well.  Under a background context both calls
    wait forever. *)
Lemma C1_overweight_not_rejected :
  ~ (forall (rh : @Locked.RequestHandler Sample.http) (s : Weighted)
            (req : @Request Sample.http) (weight : Z)
            (ctx : option Context) (w : World),
       Locked.sem rh = Some s -> size s < weight ->
       exec (Locked.DoWeightedContext (Some req) weight ctx w) rh
       = (rh, Returns None (Some (errors_New "Too heavy, drop some weight"))))
  /\
  ~ (forall (rh : @Counted.RequestHandler Sample.http)
            (req : @Request Sample.http) (weight : Z)
            (ctx : option Context) (w : World),
       MaxInt32 < weight ->
       exists e,
         exec (Counted.DoWeightedContext (Some req) weight ctx w) rh
         = (rh, Returns None (Some e))).
Proof.
  split; intros Claim.
  - specialize (Claim (@Locked.NewRequestHandler Sample.http 1 Minute None)
                      (NewWeighted 1) Sample.req 2 (Some Background) Sample.idle
                      eq_refl).
    simpl in Claim. specialize (Claim ltac:(lia)).
    vm_compute in Claim. discriminate.
  - specialize (Claim (@Counted.NewRequestHandler Sample.http 1 Minute None)
                      Sample.req 2147483648 (Some Background) Sample.idle).
    destruct Claim as [e He]; [unfold MaxInt32; lia|].
    vm_compute in He. discriminate.
Qed.

(** C2 on the code: a fresh handler of total weight 1 is asked for weight
    2 through DoWeighted; the semaphore gives up at the deadline, the
    waiting counter is decremented without error, and the call panics on
    the nil error it asks for its message.  The same happens with weight 1
    under a context that is already cancelled. *)
Theorem C2_failed_acquisition_panics :
  let rh := @Counted.NewRequestHandler Sample.http 1 Minute None in
  exec (Counted.DoWeighted (Some Sample.req) 2 Sample.idle) rh = (rh, Panics) /\
  exec (Counted.DoWeightedContext (Some Sample.req) 1 (Some (Done Canceled))
          Sample.idle) rh = (rh, Panics).
Proof.
  split; vm_compute; reflexivity.
Qed.

(** C3 on the code: the client fails the request of an admitted call; the
    call returns the client's error and the error counter still reads
    0. *)
Theorem C3_client_error_not_counted :
  let rh := @Counted.NewRequestHandler Sample.http 1 Minute (Some Sample.failing_client) in
  let call := exec (Counted.DoWeightedContext (Some Sample.req) 1 None Sample.idle) rh in
  snd call = Returns None (Some (url_Error "connection refused")) /\
  Counted.GetErrorCount rh = 0 /\
  Counted.GetErrorCount (fst call) = 0 /\
  Counted.GetTotalCount (fst call) = 0.
Proof.
  vm_compute. repeat split.
Qed.

(** C4 on the code: a call of weight 5 waits at a gate of total weight 10
    that other calls hold entirely; the waiting counter reads 1. *)
Theorem C4_waiting_counts_calls :
  let rh := Counted.set_sem (@Counted.NewRequestHandler Sample.http 10 Minute None)
                            {| size := 10; cur := 10 |} in
  let call := exec (Counted.DoWeightedContext (Some Sample.req) 5 None Sample.idle) rh in
  snd call = Blocks /\
  Counted.GetWaitingWeight rh = 0 /\
  Counted.GetWaitingWeight (fst call) = 1.
Proof.
  vm_compute. repeat split.
Qed.

(** C5 at a successful call of weight 1 on a fresh handler. *)
Lemma C5_no_leaked_weight_witness :
  let rh := @Counted.NewRequestHandler Sample.http 1 Minute None in
  let rh' := fst (exec (Counted.DoWeightedContext (Some Sample.req) 1 None Sample.idle) rh) in
  Counted.waiting rh' = Counted.waiting rh /\
  Counted.current rh' = Counted.current rh /\
  Counted.GetWaitingWeight rh' + Counted.GetCurrentWeight rh' =
  Counted.GetWaitingWeight rh + Counted.GetCurrentWeight rh.
Proof.
  intros rh rh'.
  apply (@C5_no_leaked_weight Sample.http rh rh' (Some Sample.req) 1 None
           Sample.idle (Some 200)).
  - left. unfold constructed, gate_ok, bounded, MaxInt32, MaxInt64. simpl.
    repeat split; try reflexivity; unfold MaxInt64; lia.
  - reflexivity.
Defined.

(** C6 at total weights 0, 2^31 + 5 and 7, and at timeouts of half a
    second, two hours and five seconds. *)
Lemma C6_constructor_clamps_witness :
  (Counted.sem (@Counted.NewRequestHandler Sample.http 0 500000000 None)
   = Some (NewWeighted 1) /\
   Counted.timeout (@Counted.NewRequestHandler Sample.http 0 500000000 None)
   = Minute) /\
  (Counted.sem (@Counted.NewRequestHandler Sample.http 2147483653 (2 * Hour) None)
   = Some (NewWeighted MaxInt32) /\
   Counted.timeout (@Counted.NewRequestHandler Sample.http 2147483653 (2 * Hour) None)
   = Minute) /\
  (Counted.sem (@Counted.NewRequestHandler Sample.http 7 (5 * Second) None)
   = Some (NewWeighted 7) /\
   Counted.timeout (@Counted.NewRequestHandler Sample.http 7 (5 * Second) None)
   = 5 * Second).
Proof.
  destruct (@C6_constructor_clamps Sample.http 0 500000000 None)
    as (Low & _ & _ & Short & _ & _).
  destruct (@C6_constructor_clamps Sample.http 2147483653 (2 * Hour) None)
    as (_ & High & _ & _ & Long & _).
  destruct (@C6_constructor_clamps Sample.http 7 (5 * Second) None)
    as (_ & _ & Mid & _ & _ & Kept).
  unfold MaxInt32, Hour, Minute, Second in *.
  split; [|split]; (split; [apply Low || apply High || apply Mid
                          | apply Short || apply Long || apply Kept]); lia.
Defined.

(** C7 at rollover counters of maximum 3: one at its maximum, one driven
    from zero. *)
Lemma C7_rollover_lands_on_one_witness :
  let full := {| Counted.name := "Total"; Counted.count := 3;
                 Counted.max := 3; Counted.rollover := true |} in
  let c := Counted.newCounter "Total" 3 true in
  Counted.Add full = (Counted.set_count full 1, None) /\
  Counted.run (repeat Counted.OpAdd 3 ++ [Counted.OpAdd]) c =
  (Counted.set_count c 1, repeat None 4).
Proof.
  intros full c. split.
  - destruct (C7_rollover_lands_on_one full eq_refl) as [AtMax _].
    apply AtMax. reflexivity.
  - destruct (C7_rollover_lands_on_one c eq_refl) as [_ Drive].
    apply Drive.
    + reflexivity.
    + unfold is_int, MinInt64, MaxInt64. simpl. lia.
Defined.

(** C8 at a saturating counter of maximum 2 driven past both ends. *)
Lemma C8_count_stays_within_bounds_witness :
  let ops := [Counted.OpRemove; Counted.OpAdd; Counted.OpAdd; Counted.OpAdd] in
  let c := fst (Counted.run ops (Counted.newCounter "Waiting" 2 false)) in
  0 <= Counted.Count c <= Counted.Max c.
Proof.
  intros ops c.
  apply (C8_count_stays_within_bounds "Waiting" 2 false ops).
  unfold MaxInt64. lia.
Defined.

(** C8 as stated fails for a maximum below zero, which newCounter takes
    as it is: the count starts at 0, above the maximum. *)
Lemma C8_negative_max_escapes :
  ~ (forall (name : string) (m : Z) (r : bool) (ops : list Counted.op),
       is_int m ->
       let c := fst (Counted.run ops (Counted.newCounter name m r)) in
       0 <= Counted.Count c <= Counted.Max c).
Proof.
  intros Claim.
  specialize (Claim "Waiting" (-1) false [Counted.OpAdd]).
  simpl in Claim. unfold is_int, MinInt64, MaxInt64 in Claim.
  assert (Hc : 0 <= 1 <= -1) by (apply Claim; lia).
  lia.
Qed.

(** C10 at a call of weight 1 with a nil context on a fresh handler. *)
Lemma C10_nil_context_waits_witness :
  let rh := @Counted.NewRequestHandler Sample.http 1 Minute None in
  let call := exec (Counted.DoWeightedContext (Some Sample.req) 1 None Sample.idle) rh in
  snd call <> Panics.
Proof.
  intros rh call.
  apply (@C10_nil_context_waits Sample.http rh Sample.req 1 Sample.idle).
  unfold constructed, gate_ok, bounded, MaxInt32, MaxInt64. simpl.
  repeat split; try reflexivity; unfold MaxInt64; lia.
Defined.

(** * The further properties at concrete inputs *)

Ltac by_evaluation :=
  unfold constructed, locked_ok, plain_ok, gate_ok, bounded, is_int,
    MaxInt32, MinInt64, MaxInt64;
  simpl; repeat split; try reflexivity; try discriminate;
  unfold MaxInt32, MinInt64, MaxInt64; lia.

(** X1 at a full waiting counter. *)
Lemma counter_error_leaves_counter_witness :
  let c := {| Counted.name := "Waiting"; Counted.count := 2;
              Counted.max := 2; Counted.rollover := false |} in
  fst (Counted.step Counted.OpAdd c) = c.
Proof.
  intros c.
  apply (counter_error_leaves_counter Counted.OpAdd c
           (errors_New "Waiting count too high.  Slow your roll!")).
  reflexivity.
Defined.

(** X2 at a rollover counter of maximum 2 driven past both ends. *)
Lemma rollover_never_errors_witness :
  let ops := [Counted.OpRemove; Counted.OpAdd; Counted.OpAdd; Counted.OpAdd] in
  snd (Counted.run ops (Counted.newCounter "Total" 2 true)) = repeat None 4.
Proof.
  intros ops.
  apply (rollover_never_errors ops (Counted.newCounter "Total" 2 true)).
  reflexivity.
Defined.

(** X4 at a counter reading 1 of 3. *)
Lemma Add_Remove_round_trip_witness :
  let c := {| Counted.name := "Running"; Counted.count := 1;
              Counted.max := 3; Counted.rollover := false |} in
  (snd (Counted.Add c) = None /\
   Counted.Remove (fst (Counted.Add c)) = (c, None)) /\
  (snd (Counted.Remove c) = None /\
   Counted.Add (fst (Counted.Remove c)) = (c, None)).
Proof.
  intros c.
  destruct (Add_Remove_round_trip c ltac:(by_evaluation)) as [Up Down].
  split; [apply Up | apply Down]; simpl; lia.
Defined.

(** X5 at a waiting counter of maximum 2: one refused Remove, two Adds,
    one refused Add, one Remove. *)
Lemma saturating_count_is_tally_witness :
  let ops := [Counted.OpRemove; Counted.OpAdd; Counted.OpAdd;
              Counted.OpAdd; Counted.OpRemove] in
  let c := Counted.newCounter "Waiting" 2 false in
  Counted.Count (fst (Counted.run ops c)) =
  Counted.Count c + tally ops (snd (Counted.run ops c)).
Proof.
  intros ops c.
  apply (saturating_count_is_tally ops c); [by_evaluation | reflexivity].
Defined.

(** X6 at five Adds on a rollover counter of maximum 3. *)
Lemma rollover_Adds_cycle_witness :
  let c := Counted.newCounter "Total" 3 true in
  Counted.Count (fst (Counted.run (repeat Counted.OpAdd 5) c)) = 4 mod 3 + 1.
Proof.
  intros c.
  apply (rollover_Adds_cycle 4 c); [reflexivity | by_evaluation | reflexivity].
Defined.

(** X7 at five Adds on a waiting counter of maximum 3. *)
Lemma saturating_Adds_clamp_witness :
  let c := Counted.newCounter "Waiting" 3 false in
  Counted.Count (fst (Counted.run (repeat Counted.OpAdd 5) c)) = Z.min (0 + 5) 3.
Proof.
  intros c.
  apply (saturating_Adds_clamp 5 c); [by_evaluation | reflexivity].
Defined.

(** X8 at a fresh handler and at the zero handler. *)
Lemma checkStruct_nil_iff_witness :
  Counted.checkStruct (@Counted.NewRequestHandler Sample.http 1 Minute None) = None /\
  ~ (Counted.client (@Counted.Build_RequestHandler Sample.http
                       None None 0 None None None None) <> None /\
     Counted.sem (@Counted.Build_RequestHandler Sample.http
                    None None 0 None None None None) <> None /\
     Counted.current (@Counted.Build_RequestHandler Sample.http
                        None None 0 None None None None) <> None /\
     Counted.waiting (@Counted.Build_RequestHandler Sample.http
                        None None 0 None None None None) <> None /\
     Counted.errs (@Counted.Build_RequestHandler Sample.http
                     None None 0 None None None None) <> None /\
     Counted.total (@Counted.Build_RequestHandler Sample.http
                      None None 0 None None None None) <> None).
Proof.
  split.
  - apply (proj2 (@checkStruct_nil_iff Sample.http
                    (Counted.NewRequestHandler 1 Minute None))).
    simpl. repeat split; discriminate.
  - intros Hall.
    pose proof (proj2 (@checkStruct_nil_iff Sample.http
                         (Counted.Build_RequestHandler
                            None None 0 None None None None)) Hall) as Hnil.
    discriminate Hnil.
Defined.

(** X10 at the zero handler. *)
Lemma not_initialized_fails_cleanly_witness :
  let rh := @Counted.Build_RequestHandler Sample.http
              None None 0 None None None None in
  let e := errors_New "nil http client, use the function NewRequestHandler to build the RequestHandler struct" in
  exec (Counted.DoWeightedContext (Some Sample.req) 3 None Sample.idle) rh
  = (rh, Returns None (Some e)) /\
  exec (Counted.DoWeighted (Some Sample.req) 3 Sample.idle) rh
  = (rh, Returns None (Some e)) /\
  exec (Counted.Do_ (Some Sample.req) Sample.idle) rh = (rh, Returns None (Some e)).
Proof.
  intros rh e.
  apply (@not_initialized_fails_cleanly Sample.http rh Sample.req 3 None
           Sample.idle e).
  reflexivity.
Defined.

(** X11 at a call that ends in the panic: weight 2 on a gate of total
    weight 1 under a deadline. *)
Lemma ended_call_leaves_no_weight_witness :
  let rh := @Counted.NewRequestHandler Sample.http 1 Minute None in
  let rh' := fst (exec (Counted.DoWeightedContext (Some Sample.req) 2
                          (Some (Pending DeadlineExceeded)) Sample.idle) rh) in
  Counted.waiting rh' = Counted.waiting rh /\
  Counted.current rh' = Counted.current rh.
Proof.
  intros rh rh'.
  apply (@ended_call_leaves_no_weight Sample.http rh rh' (Some Sample.req) 2
           (Some (Pending DeadlineExceeded)) Sample.idle Panics).
  - by_evaluation.
  - reflexivity.
  - discriminate.
Defined.

(** X12 at a call of weight 5 on a gate of total weight 1. *)
Lemma waiting_call_counts_once_witness :
  let rh := @Counted.NewRequestHandler Sample.http 1 Minute None in
  let rh' := fst (exec (Counted.DoWeightedContext (Some Sample.req) 5 None
                          Sample.idle) rh) in
  Counted.GetWaitingWeight rh' = Counted.GetWaitingWeight rh + 1 /\
  Counted.current rh' = Counted.current rh /\
  Counted.total rh' = Counted.total rh /\
  Counted.errs rh' = Counted.errs rh /\
  Counted.sem rh' = Counted.sem rh.
Proof.
  intros rh rh'.
  apply (@waiting_call_counts_once Sample.http rh rh' (Some Sample.req) 5 None
           Sample.idle).
  - by_evaluation.
  - reflexivity.
Defined.

(** X13 at a successful call of weight 1 on a fresh handler. *)
Lemma total_counts_successful_calls_witness :
  let rh := @Counted.NewRequestHandler Sample.http 1 Minute None in
  let rh' := fst (exec (Counted.DoWeightedContext (Some Sample.req) 1 None
                          Sample.idle) rh) in
  exists to, Counted.total rh = Some to /\
             Counted.total rh' = Some (fst (Counted.Add to)).
Proof.
  intros rh rh'.
  destruct (@total_counts_successful_calls Sample.http rh rh' Sample.req 1 None
              Sample.idle (@Returns Sample.http (Some 200) None)
              ltac:(by_evaluation) eq_refl) as [Success _].
  destruct (Success (Some 200 : option (@Response Sample.http)) eq_refl)
    as [Counted_once _].
  exact Counted_once.
Defined.

(** X14 at a call of weight 1 on a gate of total weight 3 of which other
    calls hold 2 and give back 1 meanwhile. *)
Lemma gate_weight_is_given_back_witness :
  let rh := Counted.set_sem (@Counted.NewRequestHandler Sample.http 3 Minute None)
                            {| size := 3; cur := 2 |} in
  let rh' := fst (exec (Counted.DoWeightedContext (Some Sample.req) 1 None
                          {| released := 1 |}) rh) in
  exists s s', Counted.sem rh = Some s /\ Counted.sem rh' = Some s' /\
    size s' = size s /\ 0 <= cur s' <= cur s /\ (1 <= 0 -> s' = s).
Proof.
  intros rh rh'.
  apply (@gate_weight_is_given_back Sample.http rh (Some Sample.req) 1 None
           {| released := 1 |}).
  by_evaluation.
Defined.

(** X15 at three calls on a fresh handler of total weight 1: one that
    succeeds, one of weight 5 that waits forever, one that ends in the
    panic. *)
Lemma readings_after_calls_witness :
  let calls :=
    [ {| inv_req := Some Sample.req; inv_weight := 1; inv_ctx := None;
         inv_world := Sample.idle |};
      {| inv_req := Some Sample.req; inv_weight := 5; inv_ctx := None;
         inv_world := Sample.idle |};
      {| inv_req := Some Sample.req; inv_weight := 1;
         inv_ctx := Some (Done Canceled); inv_world := Sample.idle |} ] in
  let rh := @Counted.NewRequestHandler Sample.http 1 Minute None in
  let rh' := fst (serve calls rh) in
  Counted.GetErrorCount rh' = 0 /\
  Counted.GetCurrentWeight rh' = 0 /\
  Counted.GetWaitingWeight rh' = 1 /\
  Counted.GetTotalCount rh' = 1.
Proof.
  intros calls rh rh'.
  destruct (@readings_after_calls Sample.http calls rh ltac:(by_evaluation))
    as (_ & Herrs & Hcurrent & Hwaiting & Htotal).
  split; [exact Herrs|]. split; [exact Hcurrent|]. split; [exact Hwaiting|].
  apply (Htotal (Counted.newCounter "Total" 0 true) eq_refl).
  vm_compute. discriminate.
Defined.

(** X16 at a call of weight 2 on a fresh handler of total weight 3 whose
    client fails. *)
Lemma first_call_is_admitted_witness :
  let rh := @Counted.NewRequestHandler Sample.http 3 Minute
              (Some Sample.failing_client) in
  let call := exec (Counted.DoWeightedContext (Some Sample.req) 2 None
                      Sample.idle) rh in
  snd call = Returns None (Some (url_Error "connection refused")) /\
  Counted.sem (fst call) = Counted.sem rh /\
  Counted.GetTotalCount (fst call) = 0.
Proof.
  intros rh call.
  apply (@first_call_is_admitted Sample.http 3 Minute Sample.failing_client
           Sample.req 2 None Sample.idle).
  - right. unfold MaxInt32. lia.
  - discriminate.
Defined.

(** X17 at DoWeighted with weight 5 on a fresh handler of total weight
    1. *)
Lemma DoWeighted_never_waits_forever_witness :
  let rh := @Counted.NewRequestHandler Sample.http 1 Minute None in
  snd (exec (Counted.DoWeighted (Some Sample.req) 5 Sample.idle) rh) <> Blocks /\
  snd (exec (Counted.Do_ (Some Sample.req) Sample.idle) rh) <> Blocks.
Proof.
  intros rh.
  apply (@DoWeighted_never_waits_forever Sample.http rh (Some Sample.req) 5
           Sample.idle).
  - by_evaluation.
  - reflexivity.
Defined.

(** X18 at weight 2 on a gate of total weight 1 under a deadline. *)
Lemma locked_failed_acquisition_returns_error_witness :
  let rh := @Locked.NewRequestHandler Sample.http 1 Minute None in
  exec (Locked.DoWeightedContext (Some Sample.req) 2
          (Some (Pending DeadlineExceeded)) Sample.idle) rh
  = (rh, Returns None (Some DeadlineExceeded)).
Proof.
  intros rh.
  apply (@locked_failed_acquisition_returns_error Sample.http rh (NewWeighted 1)
           Sample.req 2 (Pending DeadlineExceeded) Sample.idle DeadlineExceeded).
  - by_evaluation.
  - reflexivity.
  - unfold MaxInt32. lia.
  - reflexivity.
  - reflexivity.
Defined.

(** X19 at a successful call of weight 1 on a handler of the mutex
    revision. *)
Lemma locked_call_restores_weights_witness :
  let rh := @Locked.NewRequestHandler Sample.http 1 Minute None in
  let call := exec (Locked.DoWeightedContext (Some Sample.req) 1
                      (Some Background) Sample.idle) rh in
  snd call <> Panics /\
  (snd call <> Blocks ->
   Locked.GetWaitingWeight (fst call) = Locked.GetWaitingWeight rh /\
   Locked.GetCurrentWeight (fst call) = Locked.GetCurrentWeight rh).
Proof.
  intros rh call.
  apply (@locked_call_restores_weights Sample.http rh (fst call)
           (Some Sample.req) 1 Background Sample.idle (snd call)).
  - by_evaluation.
  - reflexivity.
Defined.

(** X20 at a call of weight 1 on a handler of the mutex revision whose
    client fails. *)
Lemma locked_admitted_call_passes_answer_witness :
  let rh := @Locked.NewRequestHandler Sample.http 1 Minute
              (Some Sample.failing_client) in
  let call := exec (Locked.DoWeightedContext (Some Sample.req) 1
                      (Some Background) Sample.idle) rh in
  snd call = Returns None (Some (url_Error "connection refused")) /\
  exists s'', Locked.sem (fst call) = Some s'' /\
              size s'' = 1 /\ 0 <= cur s'' <= 0 /\
              (0 <= 0 -> s'' = NewWeighted 1).
Proof.
  intros rh call.
  apply (@locked_admitted_call_passes_answer Sample.http rh (NewWeighted 1)
           {| size := 1; cur := 1 |} Sample.failing_client Sample.req 1
           Background Sample.idle).
  - by_evaluation.
  - reflexivity.
  - reflexivity.
  - unfold MaxInt32. lia.
  - reflexivity.
  - reflexivity.
Defined.

(** X21 at a call of weight 1 on a handler of the first revision. *)
Lemma plain_call_outcomes_witness :
  let rh := @Plain.NewRequestHandler Sample.http 1 Minute None in
  let call := exec (Plain.DoWeightedContext (Some Sample.req) 1
                      (Some Background) Sample.idle) rh in
  snd call = @Returns Sample.http (Some 200) None.
Proof.
  intros rh call.
  destruct (@plain_call_outcomes Sample.http rh (NewWeighted 1)
              (@DefaultClient Sample.http) Sample.req 1 Background Sample.idle
              ltac:(by_evaluation) eq_refl eq_refl)
    as (_ & _ & Granted_call).
  destruct (Granted_call {| size := 1; cur := 1 |} eq_refl) as [Answer _].
  exact Answer.
Defined.

(** X22 at DoWeighted with weight 5 on fresh handlers of total weight
    1. *)
Lemma early_DoWeighted_always_returns_witness :
  (exists resp err,
     snd (exec (Plain.DoWeighted (Some Sample.req) 5 Sample.idle)
            (@Plain.NewRequestHandler Sample.http 1 Minute None))
     = Returns resp err) /\
  (exists resp err,
     snd (exec (Locked.DoWeighted (Some Sample.req) 5 Sample.idle)
            (@Locked.NewRequestHandler Sample.http 1 Minute None))
     = Returns resp err).
Proof.
  destruct (@early_DoWeighted_always_returns Sample.http (Some Sample.req) 5
              Sample.idle) as [First Mutex].
  split.
  - apply First; [by_evaluation | reflexivity].
  - apply Mutex; [by_evaluation | reflexivity].
Defined.
